(** * Scene catalog and scenario builder of [scripts/2d_data_generation.py]

    A shallow embedding of the script: the table [predefined_obstacles],
    the function [main] and the command-line block under
    [if __name__ == "__main__"].  Python values are embedded as a small
    dynamically-typed universe, dictionaries as [gmap], and the calls into
    torch, numpy, [diffco.model] and [generate_batch_data_2d] as the nodes
    of a program tree that this layer builds and the libraries answer. *)

From Stdlib Require Import ZArith QArith Qround Qabs Qpower Lia Lqa Ascii String.
From stdpp Require Import base option list strings gmap fin_maps.

#[local] Set Warnings "-register-all,-clear-no-such-hyp".

Local Open Scope string_scope.
Local Open Scope list_scope.
Local Open Scope Z_scope.

(** ** Python values *)

Module Py.

(** The floats that denote no rational. *)
Inductive non_finite : Type := NaN | PosInf | NegInf.

(** The values the script manipulates: integers, floats (a finite float
    is the rational it denotes), strings, tuples and lists. *)
Inductive value : Type :=
| VInt (z : Z)
| VFloat (q : Q)
| VNonFinite (x : non_finite)
| VStr (s : string)
| VTuple (items : list value)
| VList (items : list value).

(** Exceptions.  Both failing subscriptions, [predefined_obstacles[env_name]]
    and [lengths[dof]], raise [KeyError] carrying the key that was not
    found; the argument parser leaves with [SystemExit]; a call whose
    keywords do not fit the parameters raises [TypeError];
    [np.random.seed] refuses a seed with [ValueError] and
    [torch.manual_seed] with [RuntimeError]. *)
Inductive exn : Type :=
| KeyError (key : value)
| SystemExit (code : Z)
| TypeError
| ValueError
| RuntimeError.

(** [a == b] on numbers and strings. *)
Definition py_eqb (a b : value) : bool :=
  match a, b with
  | VStr x, VStr y => String.eqb x y
  | VInt x, VInt y => Z.eqb x y
  | VInt x, VFloat y | VFloat y, VInt x => Qeq_bool (inject_Z x) y
  | VFloat x, VFloat y => Qeq_bool x y
  | _, _ => false
  end.

(** Numeric reading of a value, [None] for a non-number. *)
Definition number (v : value) : option Q :=
  match v with
  | VInt z => Some (inject_Z z)
  | VFloat q => Some q
  | _ => None
  end.

End Py.
Export Py.

(** ** Floats

    A float is the rational it denotes.  Arithmetic is exact arithmetic
    followed by rounding to the nearest number with 53 significant bits
    and exponent at least -1074, ties to even: the binary64 format below
    its overflow threshold, which no value of this script comes near. *)

Module Float.

(** [floor (log2 q)], for [q > 0]. *)
Definition Qlog2 (q : Q) : Z :=
  let e := Z.log2 (Qnum q) - Z.log2 (Zpos (Qden q)) in
  if Qle_bool (2 ^ e) q then e else e - 1.

(** The integer nearest to [q], the even one of two equally near. *)
Definition Qround_even (q : Q) : Z :=
  let f := Qfloor q in
  match (q - inject_Z f ?= 1 # 2)%Q with
  | Lt => f
  | Gt => f + 1
  | Eq => if Z.even f then f else f + 1
  end.

Definition round_positive (q : Q) : Q :=
  let c := Z.max (Qlog2 q - 52) (-1074) in
  (inject_Z (Qround_even (q / 2 ^ c)) * 2 ^ c)%Q.

Definition binary64_round (q : Q) : Q :=
  match (q ?= 0)%Q with
  | Eq => 0%Q
  | Gt => round_positive q
  | Lt => (- round_positive (- q))%Q
  end.

Definition fadd (a b : Q) : Q := binary64_round (a + b).
Definition fsub (a b : Q) : Q := binary64_round (a - b).
Definition fmul (a b : Q) : Q := binary64_round (a * b).

End Float.
Export Float.

(** [d[key]]: the value stored under [key], [KeyError(key)] when absent;
    [repr] is the key as a Python value. *)
Definition subscript `{Countable K} {V} (d : gmap K V) (key : K) (repr : K -> value)
  : exn + V :=
  match d !! key with
  | Some v => inr v
  | None => inl (KeyError (repr key))
  end.

(** A dictionary display [{k1: v1, ..., kn: vn}]: items are stored left to
    right, a later item replacing an earlier one with the same key. *)
Definition dict_display `{Countable K} {V} (items : list (K * V)) : gmap K V :=
  foldl (fun m kv => <[kv.1 := kv.2]> m) ∅ items.

(** ** The scene table (source lines 10-51) *)

Definition predefined_obstacles : gmap string (list value) :=
  dict_display [
    ("1rect_1circle",
       [ VTuple [VStr "rect"; VTuple [VInt 4; VInt 3]; VTuple [VInt 2; VInt 2]];
         VTuple [VStr "circle"; VTuple [VInt (-4); VInt (-3)]; VInt 1] ]);
    ("3circle",
       [ VTuple [VStr "circle"; VTuple [VInt 0; VFloat 4.5%Q]; VInt 1];
         VTuple [VStr "circle"; VTuple [VInt (-2); VInt (-3)]; VInt 2];
         VTuple [VStr "circle"; VTuple [VInt (-2); VInt 2]; VFloat 1.5%Q] ]);
    ("1rect_1circle_7d",
       [ VTuple [VStr "circle"; VTuple [VInt (-2); VInt 3]; VInt 1];
         VTuple [VStr "rect"; VTuple [VInt 3; VInt 2]; VTuple [VInt 2; VInt 2]] ]);
    ("2class_1",
       [ VTuple [VStr "rect"; VTuple [VInt 5; VInt 0]; VTuple [VInt 2; VInt 2]; VInt 0];
         VTuple [VStr "circle"; VTuple [VInt (-3); VInt 6]; VInt 1; VInt 1];
         VTuple [VStr "rect"; VTuple [VInt (-5); VInt 2];
                 VTuple [VInt 2; VFloat 1.5%Q]; VInt 1];
         VTuple [VStr "circle"; VTuple [VInt (-5); VInt (-2)]; VFloat 1.5%Q; VInt 1];
         VTuple [VStr "circle"; VTuple [VInt (-3); VInt (-6)]; VInt 1; VInt 1] ]);
    ("2class_2",
       [ VTuple [VStr "rect"; VTuple [VInt 0; VInt 3];
                 VTuple [VInt 16; VFloat 0.5%Q]; VInt 1];
         VTuple [VStr "rect"; VTuple [VInt 0; VInt (-3)];
                 VTuple [VInt 16; VFloat 0.5%Q]; VInt 0] ]);
    ("3circle_7d",
       [ VTuple [VStr "circle"; VTuple [VInt (-2); VInt 2]; VInt 1];
         VTuple [VStr "circle"; VTuple [VInt (-3); VInt 3]; VInt 1];
         VTuple [VStr "circle"; VTuple [VInt (-6); VInt (-3)]; VInt 1] ])
  ].


(** ** Programs of this layer

    [main] calls into four libraries.  A program is the tree of those
    calls: each node is one call the layer makes, with the arguments it
    passes, and the subtree is what the layer does with the answer.  What
    the libraries do is not part of the tree. *)

Section Builder.

Context {Robot : Type}.

(** The arguments of the one call of [generate_data_planar_manipulators]
    (source lines 102-103). *)
Record generate_call : Type := GenerateCall {
  gc_robot : Robot;
  gc_folder : string;
  gc_obstacles : list value;
  gc_label_type : string;
  gc_num_class : Z;
  gc_num_points : Z;
  gc_env_id : string;
  gc_vis : bool
}.

Inductive prog (A : Type) : Type :=
| Ret (a : A)
| Raise (e : exn)
| TorchManualSeed (seed : Z) (k : prog A)
| NpRandomSeed (seed : Z) (k : prog A)
| NpRandomRand2 (k : Q * Q -> prog A)
| RevolutePlanarRobot (link_length width : value) (dof : Z) (k : Robot -> prog A)
| GenerateDataPlanarManipulators (call : generate_call) (k : prog A).

Arguments Ret {A} a.
Arguments Raise {A} e.
Arguments TorchManualSeed {A} seed k.
Arguments NpRandomSeed {A} seed k.
Arguments NpRandomRand2 {A} k.
Arguments RevolutePlanarRobot {A} link_length width dof k.
Arguments GenerateDataPlanarManipulators {A} call k.

Fixpoint bind {A B} (p : prog A) (f : A -> prog B) : prog B :=
  match p with
  | Ret a => f a
  | Raise e => Raise e
  | TorchManualSeed seed k => TorchManualSeed seed (bind k f)
  | NpRandomSeed seed k => NpRandomSeed seed (bind k f)
  | NpRandomRand2 k => NpRandomRand2 (fun u => bind (k u) f)
  | RevolutePlanarRobot l w d k => RevolutePlanarRobot l w d (fun r => bind (k r) f)
  | GenerateDataPlanarManipulators c k => GenerateDataPlanarManipulators c (bind k f)
  end.

#[global] Instance prog_ret : MRet prog := fun A a => Ret a.
#[global] Instance prog_bind : MBind prog := fun A B f p => bind p f.

(** The library calls as one-node programs. *)
Definition torch_manual_seed (seed : Z) : prog unit := TorchManualSeed seed (Ret tt).
Definition np_random_seed (seed : Z) : prog unit := NpRandomSeed seed (Ret tt).
Definition np_random_rand2 : prog (Q * Q) := NpRandomRand2 Ret.
Definition new_RevolutePlanarRobot (link_length width : value) (dof : Z) : prog Robot :=
  RevolutePlanarRobot link_length width dof Ret.
Definition generate_data_planar_manipulators (call : generate_call) : prog unit :=
  GenerateDataPlanarManipulators call (Ret tt).

(** An expression that evaluates or raises, as a program. *)
Definition eval {A} (r : exn + A) : prog A :=
  match r with
  | inr a => Ret a
  | inl e => Raise e
  end.

(** [for i in items: s = body i s]. *)
Fixpoint for_each {I S} (items : list I) (body : I -> S -> prog S) (s : S) : prog S :=
  match items with
  | [] => Ret s
  | i :: rest => s' ← body i s; for_each rest body s'
  end.

Definition range (n : nat) : list nat := seq 0 n.

(** ** Float arrays of shape (2,) *)

Definition arr_add (a b : Q * Q) : Q * Q := (fadd a.1 b.1, fadd a.2 b.2).
Definition arr_sub (a b : Q * Q) : Q * Q := (fsub a.1 b.1, fsub a.2 b.2).
Definition arr_mul (a b : Q * Q) : Q * Q := (fmul a.1 b.1, fmul a.2 b.2).
Definition tolist (a : Q * Q) : value := VList [VFloat a.1; VFloat a.2].

(** The body of the loop that occurs three times in [main] (lines 71-74,
    79-82 and 89-92): one rectangle of size (1, 1) appended to
    [obstacles], at a fresh position [rand(2,)*(ub-lb)+lb]. *)
Definition append_rect (lb ub : Q * Q) (obstacles : list value) : prog (list value) :=
  u ← np_random_rand2;
  let pos := arr_add (arr_mul u (arr_sub ub lb)) lb in
  let pos := tolist pos in
  let size := VTuple [VInt 1; VInt 1] in
  mret (obstacles ++ [VTuple [VStr "rect"; pos; size]]).

(** [for i in range(count): ...] around that body. *)
Definition append_rects (count : nat) (lb ub : Q * Q) (obstacles : list value)
  : prog (list value) :=
  for_each (range count) (fun _ => append_rect lb ub) obstacles.

(** The table [lengths] of line 97. *)
Definition lengths : gmap Z value :=
  dict_display [ (2, VFloat 3.5%Q); (3, VInt 2); (7, VInt 1) ].

(** ** [main] (source lines 54-104) *)

(** The [if]/[elif]/[else] of lines 66-98: it leaves the variables
    [obstacles] and [link_length] set, or raises. *)
Definition resolve_scene (env_name : string) (dof : Z) : prog (list value * value) :=
  if String.eqb env_name "7d_narrow" then
    let obstacles := [] in
    let lb := (-8, 1.0)%Q in
    let ub := (8, 8)%Q in
    obstacles ← append_rects 150 lb ub obstacles;
    let lb := (-8, -8)%Q in
    let ub := (8, -1.0)%Q in
    obstacles ← append_rects 150 lb ub obstacles;
    let link_length := VInt 1 in
    mret (obstacles, link_length)
  else if String.eqb env_name "3d_halfnarrow" then
    let obstacles := [] in
    let lb := (-8, 1.0)%Q in
    let ub := (8, 8)%Q in
    obstacles ← append_rects 150 lb ub obstacles;
    let link_length := VFloat 2.5%Q in
    mret (obstacles, link_length)
  else
    obstacles ← eval (subscript predefined_obstacles env_name VStr);
    let lengths := lengths in
    link_length ← eval (subscript lengths dof VInt);
    mret (obstacles, link_length).

Definition main (env_name folder label_type : string) (num_class dof num_init_points
    random_seed : Z) (width : value) : prog unit :=
  torch_manual_seed random_seed;;
  np_random_seed random_seed;;
  '(obstacles, link_length) ← resolve_scene env_name dof;
  robot ← new_RevolutePlanarRobot link_length width dof;
  generate_data_planar_manipulators
    {| gc_robot := robot; gc_folder := folder; gc_obstacles := obstacles;
       gc_label_type := label_type; gc_num_class := num_class;
       gc_num_points := num_init_points; gc_env_id := env_name; gc_vis := true |}.

(** ** The command line (source lines 106-120)

    The eight arguments the script declares, and the script as a program
    over argparse's [parse_args], which is a library function like the
    others: it returns a namespace or leaves with an exception. *)

Inductive arg_type : Type := TStr | TInt | TFloat.

Record argument : Type := Argument {
  option_strings : list string;
  dest : string;
  type : arg_type;
  choices : option (list value);
  default : value
}.

Definition env_choices : list string :=
  ["1rect_1circle"; "3circle"; "1rect_1circle_7d"; "2class_1";
   "2class_2"; "3circle_7d"; "7d_narrow"; "3d_halfnarrow"].

Definition parser : list argument := [
  Argument ["-e"; "--env"] "env_name" TStr (Some (VStr <$> env_choices))
    (VStr "3d_halfnarrow");
  Argument ["-o"; "--output-dir"] "folder" TStr None (VStr "data/landscape");
  Argument ["-l"; "--label-type"] "label_type" TStr
    (Some [VStr "instance"; VStr "class"; VStr "binary"]) (VStr "binary");
  Argument ["-n"; "--num-classes"] "num_class" TInt None (VInt 2);
  Argument ["-d"; "--dof"] "dof" TInt (Some [VInt 2; VInt 3; VInt 7]) (VInt 3);
  Argument ["-i"; "--num-init-points"] "num_init_points" TInt None (VInt 8000);
  Argument ["-w"; "--width"] "width" TFloat None (VFloat (binary64_round 0.3));
  Argument ["-r"; "--random-seed"] "random_seed" TInt None (VInt 2021)
].

(** The [choices] test: [v in choices]. *)
Definition check_choices (a : argument) (v : value) : bool :=
  match choices a with
  | None => true
  | Some cs => existsb (py_eqb v) cs
  end.

(** The namespace when no option is given. *)
Definition defaults : gmap string value :=
  foldl (fun ns a => <[dest a := default a]> ns) ∅ parser.

(** The parameters of [main] with their defaults (lines 55-62). *)
Definition main_parameters : list (string * value) := [
  ("env_name", VStr "3d_halfnarrow");
  ("folder", VStr "data/landscape");
  ("label_type", VStr "binary");
  ("num_class", VInt 2);
  ("dof", VInt 3);
  ("num_init_points", VInt 8000);
  ("random_seed", VInt 2021);
  ("width", VFloat (binary64_round 0.3))
].

(** [main] called with the keywords [kwargs].  A keyword that is no
    parameter of [main] raises [TypeError]; a parameter without keyword
    takes its default.  The values are taken at the annotated types
    (any value for the width, which [main] only passes on); a call with
    a value of another type is not modelled and is reported as
    [TypeError] as well. *)
Definition call_main (kwargs : gmap string value) : prog unit :=
  let parameters : gmap string value := dict_display main_parameters in
  if bool_decide (dom kwargs ⊆ dom parameters) then
    let bound := kwargs ∪ parameters in
    match bound !! "env_name", bound !! "folder", bound !! "label_type",
          bound !! "num_class", bound !! "dof", bound !! "num_init_points",
          bound !! "random_seed", bound !! "width" with
    | Some (VStr env_name), Some (VStr folder), Some (VStr label_type),
      Some (VInt num_class), Some (VInt dof), Some (VInt num_init_points),
      Some (VInt random_seed), Some width =>
        main env_name folder label_type num_class dof num_init_points random_seed
          width
    | _, _, _, _, _, _, _, _ => Raise TypeError
    end
  else Raise TypeError.

(** argparse's [parser.parse_args], on [sys.argv[1:]]. *)
Variable parse_args : list string -> exn + gmap string value.

(** The block under [if __name__ == "__main__"]. *)
Definition script (argv : list string) : prog unit :=
  args ← eval (parse_args argv);
  call_main args.

End Builder.

Arguments prog Robot A : clear implicits.
Arguments Ret {Robot A} a.
Arguments Raise {Robot A} e.
Arguments TorchManualSeed {Robot A} seed k.
Arguments NpRandomSeed {Robot A} seed k.
Arguments NpRandomRand2 {Robot A} k.
Arguments RevolutePlanarRobot {Robot A} link_length width dof k.
Arguments GenerateDataPlanarManipulators {Robot A} call k.
Arguments generate_call Robot : clear implicits.
Arguments script {Robot} parse_args argv.
Arguments call_main {Robot} kwargs.
Arguments GenerateCall {Robot}.

(** ** Running a program against numpy and torch

    The two generators are process-wide state.  [torch.manual_seed] takes
    a seed from -2^63 up to 2^64 - 1 and raises [RuntimeError] on any
    other; [np.random.seed] takes a seed from 0 up to 2^32 - 1 and raises
    [ValueError] on any other.  A seed that is taken installs a state
    that depends on the seed only; a seed that is refused leaves the
    generator as it was, and [main], which catches nothing, ends with the
    exception.  [np.random.rand(2,)] draws two samples in a row.  A run
    goes on until the program returns, raises, or reaches a call into the
    robot model or the batch generator, where it stops with the arguments
    of that call and the rest of the program. *)

Section Semantics.

Context {Robot : Type}.
Variables RandomState Generator : Type.
Variable np_seed_state : Z -> RandomState.
Variable random_sample : RandomState -> Q * RandomState.
Variable torch_seed_state : Z -> Generator.

Record world : Type := World {
  numpy_state : RandomState;
  torch_state : Generator
}.

Inductive stop (A : Type) : Type :=
| Returned (a : A)
| Raised (e : exn)
| AtRobot (link_length width : value) (dof : Z) (k : Robot -> prog Robot A)
| AtGenerate (call : generate_call Robot) (k : prog Robot A).

Arguments Returned {A} a.
Arguments Raised {A} e.
Arguments AtRobot {A} link_length width dof k.
Arguments AtGenerate {A} call k.

Definition torch_accepts (seed : Z) : bool :=
  (- 2 ^ 63 <=? seed) && (seed <? 2 ^ 64).

Definition numpy_accepts (seed : Z) : bool :=
  (0 <=? seed) && (seed <? 2 ^ 32).

Definition rand2 (s : RandomState) : (Q * Q) * RandomState :=
  let '(u0, s) := random_sample s in
  let '(u1, s) := random_sample s in
  ((u0, u1), s).

Fixpoint run {A} (p : prog Robot A) (w : world) : stop A * world :=
  match p with
  | Ret a => (Returned a, w)
  | Raise e => (Raised e, w)
  | TorchManualSeed seed k =>
      if torch_accepts seed then
        run k {| numpy_state := numpy_state w; torch_state := torch_seed_state seed |}
      else (Raised RuntimeError, w)
  | NpRandomSeed seed k =>
      if numpy_accepts seed then
        run k {| numpy_state := np_seed_state seed; torch_state := torch_state w |}
      else (Raised ValueError, w)
  | NpRandomRand2 k =>
      let '(u, s) := rand2 (numpy_state w) in
      run (k u) {| numpy_state := s; torch_state := torch_state w |}
  | RevolutePlanarRobot l wd d k => (AtRobot l wd d k, w)
  | GenerateDataPlanarManipulators c k => (AtGenerate c k, w)
  end.

(** The rectangles that [count] iterations of the sampling loop append,
    and the numpy state they leave, as a function of the numpy state they
    start from. *)
Fixpoint sampled_rects (count : nat) (lb ub : Q * Q) (s : RandomState)
  : list value * RandomState :=
  match count with
  | O => ([], s)
  | S n =>
      let '(u, s) := rand2 s in
      let pos := tolist (arr_add (arr_mul u (arr_sub ub lb)) lb) in
      let '(rest, s) := sampled_rects n lb ub s in
      (VTuple [VStr "rect"; pos; VTuple [VInt 1; VInt 1]] :: rest, s)
  end.

(** The run of [p] from [w] reaches line 100 in world [w'], constructs
    the robot from [(link_length, width, dof)] and then, with the robot
    it gets back, calls the generator with [call robot] and returns. *)
Definition delegates (p : prog Robot unit) (w : world) (link_length width : value)
    (dof : Z) (call : Robot -> generate_call Robot) (w' : world) : Prop :=
  exists k, run p w = (AtRobot link_length width dof k, w') /\
    forall robot, k robot = GenerateDataPlanarManipulators (call robot) (Ret tt).

End Semantics.

Arguments stop Robot A : clear implicits.
Arguments World {RandomState Generator}.
Arguments numpy_state {RandomState Generator}.
Arguments torch_state {RandomState Generator}.
Arguments Returned {Robot A} a.
Arguments Raised {Robot A} e.
Arguments AtRobot {Robot A} link_length width dof k.
Arguments AtGenerate {Robot A} call k.
Arguments rand2 {RandomState}.
Arguments sampled_rects {RandomState} random_sample count lb ub s.
Arguments run {Robot RandomState Generator} np_seed_state random_sample torch_seed_state {A}.
Arguments delegates {Robot RandomState Generator} np_seed_state random_sample torch_seed_state.

(** ** Obstacle descriptors as the specification reads them

    A descriptor is a circle with a radius or a rectangle with extents, at
    a centre, with an optional class tag. *)

Inductive shape : Type :=
| Circle (radius : Q)
| Rect (w h : Q).

Record descriptor : Type := Descriptor {
  d_shape : shape;
  d_center : Q * Q;
  d_tag : option Z
}.

Definition vec2 (v : value) : option (Q * Q) :=
  match v with
  | VTuple [a; b] | VList [a; b] => x ← number a; y ← number b; Some (x, y)
  | _ => None
  end.

Definition shape_of (kind : string) (size : value) : option shape :=
  if String.eqb kind "circle" then Circle <$> number size
  else if String.eqb kind "rect" then (fun e : Q * Q => Rect e.1 e.2) <$> vec2 size
  else None.

Definition describe (v : value) : option descriptor :=
  match v with
  | VTuple [VStr kind; pos; size] =>
      sh ← shape_of kind size; c ← vec2 pos; Some (Descriptor sh c None)
  | VTuple [VStr kind; pos; size; VInt tag] =>
      sh ← shape_of kind size; c ← vec2 pos; Some (Descriptor sh c (Some tag))
  | _ => None
  end.

(** The entries of [predefined_obstacles[env_name]] read as descriptors. *)
Definition scene_descriptors (env_name : string) : option (list descriptor) :=
  match subscript predefined_obstacles env_name VStr with
  | inr obstacles => mapM describe obstacles
  | inl _ => None
  end.

(** A position inside the closed box between [lb] and [ub]. *)
Definition in_box (lb ub c : Q * Q) : bool :=
  Qle_bool lb.1 c.1 && Qle_bool c.1 ub.1 && Qle_bool lb.2 c.2 && Qle_bool c.2 ub.2.

(** A box with integral corners, as all three boxes of [main] are. *)
Definition integral_box (lb ub : Q * Q) : Prop :=
  exists a1 a2 b1 b2 : Z,
    (lb.1 == inject_Z a1 /\ lb.2 == inject_Z a2 /\
     ub.1 == inject_Z b1 /\ ub.2 == inject_Z b2)%Q /\
    a1 <= b1 /\ a2 <= b2 /\
    Z.abs a1 <= 2 ^ 52 /\ Z.abs a2 <= 2 ^ 52 /\ Z.abs b1 <= 2 ^ 52 /\ Z.abs b2 <= 2 ^ 52.

(** An untagged 1 x 1 rectangle whose centre lies in the box. *)
Definition unit_rect_in (lb ub : Q * Q) (v : value) : Prop :=
  exists c, describe v = Some (Descriptor (Rect 1 1) c None) /\ in_box lb ub c = true.

(** ** What argparse promises of a namespace

    Every attribute holds the default of its argument, or a value of the
    argument's [type] that passed its [choices] test; there is no other
    attribute. *)

Definition has_type (t : arg_type) (v : value) : Prop :=
  match t, v with
  | TStr, VStr _ => True
  | TInt, VInt _ => True
  | TFloat, (VFloat _ | VNonFinite _) => True
  | _, _ => False
  end.

Definition admissible (a : argument) (v : value) : Prop :=
  v = default a \/ (has_type (type a) v /\ check_choices a v = true).

Definition conforms (ns : gmap string value) : Prop :=
  dom ns = (list_to_set (dest <$> parser) : gset string) /\
  forall a, a ∈ parser -> exists v, ns !! dest a = Some v /\ admissible a v.

(** [parse_args] is a function of argparse, not of this repository: it
    is taken as any function that returns a namespace of that kind, or
    leaves with [SystemExit], code 0 after printing the help and code 2
    on arguments it refuses. *)
Definition argparse (parse_args : list string -> exn + gmap string value) : Prop :=
  forall argv,
    match parse_args argv with
    | inr ns => conforms ns
    | inl e => e = SystemExit 0 \/ e = SystemExit 2
    end.

(** What that comes to for this parser: the eight attributes at their
    types, the scene among [env_choices], the DOF among 2, 3, 7. *)
Definition parsed_namespace (ns : gmap string value) : Prop :=
  dom ns = (list_to_set (dest <$> parser) : gset string) /\
  exists env_name folder label_type num_class dof num_init_points random_seed width,
    ns !! "env_name" = Some (VStr env_name) /\ env_name ∈ env_choices /\
    ns !! "folder" = Some (VStr folder) /\
    ns !! "label_type" = Some (VStr label_type) /\
    ns !! "num_class" = Some (VInt num_class) /\
    ns !! "dof" = Some (VInt dof) /\ dof ∈ [2; 3; 7] /\
    ns !! "num_init_points" = Some (VInt num_init_points) /\
    ns !! "random_seed" = Some (VInt random_seed) /\
    ns !! "width" = Some width.

(** ** A generator and conversions to run the script on

    A 64-bit linear congruential generator whose samples are the top 53
    bits of the state over 2^53, and conversions that read plain decimal
    numerals. *)

Module Lcg.

Definition seed_state (seed : Z) : Z := seed mod 2 ^ 64.

Definition random_sample (s : Z) : Q * Z :=
  let s := (6364136223846793005 * s + 1442695040888963407) mod 2 ^ 64 in
  (Qmake (s / 2 ^ 11) (2 ^ 53), s).

End Lcg.

(** The obstacle list a run has handed over when it stops at the robot
    construction with only the generator call left. *)
Definition handed_over {RandomState Generator}
    (r : stop unit unit * world RandomState Generator) : option (list value) :=
  match r with
  | (AtRobot _ _ _ k, _) =>
      match k tt with
      | GenerateDataPlanarManipulators call (Ret _) => Some (gc_obstacles call)
      | _ => None
      end
  | _ => None
  end.

(** The boolean form of [unit_rect_in]. *)
Definition unit_rect_inb (lb ub : Q * Q) (v : value) : bool :=
  match describe v with
  | Some (Descriptor (Rect w h) c None) =>
      Qeq_bool w 1 && Qeq_bool h 1 && in_box lb ub c
  | _ => false
  end.

Module Decimal.

Definition digit (c : ascii) : option Z :=
  let n := Z.of_nat (nat_of_ascii c) - 48 in
  if (0 <=? n) && (n <=? 9) then Some n else None.

Fixpoint digits (s : string) (acc : Z) : option Z :=
  match s with
  | EmptyString => Some acc
  | String c s => d ← digit c; digits s (10 * acc + d)
  end.

Definition natural (s : string) : option Z :=
  match s with
  | EmptyString => None
  | _ => digits s 0
  end.

Definition int (s : string) : option Z :=
  match s with
  | String "-" s => Z.opp <$> natural s
  | _ => natural s
  end.

(** Split at the first point. *)
Fixpoint split_point (s : string) : string * option string :=
  match s with
  | EmptyString => (EmptyString, None)
  | String "." s => (EmptyString, Some s)
  | String c s => let '(a, b) := split_point s in (String c a, b)
  end.

Definition float (s : string) : option Q :=
  let '(negative, s) :=
    match s with
    | String "-" s => (true, s)
    | _ => (false, s)
    end in
  let '(whole, fraction) := split_point s in
  magnitude ←
    match fraction with
    | None => inject_Z <$> natural whole
    | Some fraction =>
        w ← natural whole; f ← natural fraction;
        Some (inject_Z w + inject_Z f / inject_Z (10 ^ Z.of_nat (String.length fraction)))%Q
    end;
  Some (binary64_round (if negative : bool then - magnitude else magnitude)%Q).

End Decimal.

(** A parser to run the script on.  It reads options one by one, each an
    option string as declared followed by its value in the next token,
    and refuses everything else; argparse takes other spellings too. *)

Module Pairs.

Definition find_argument (flag : string) : option argument :=
  List.find (fun a => existsb (String.eqb flag) (option_strings a)) parser.

Definition convert (t : arg_type) (s : string) : option value :=
  match t with
  | TStr => Some (VStr s)
  | TInt => VInt <$> Decimal.int s
  | TFloat => VFloat <$> Decimal.float s
  end.

Fixpoint parse_known (argv : list string) (ns : gmap string value)
  : exn + gmap string value :=
  match argv with
  | [] => inr ns
  | flag :: rest =>
      if String.eqb flag "-h" || String.eqb flag "--help" then inl (SystemExit 0)
      else
        match find_argument flag, rest with
        | Some a, s :: rest =>
            match convert (type a) s with
            | Some v =>
                if check_choices a v then parse_known rest (<[dest a := v]> ns)
                else inl (SystemExit 2)
            | None => inl (SystemExit 2)
            end
        | _, _ => inl (SystemExit 2)
        end
  end.

Definition parse_args (argv : list string) : exn + gmap string value :=
  parse_known argv defaults.

End Pairs.

(** ** The sample stream

    What the loops draw, sample by sample: the state after [n] samples and
    the [n]-th sample from a state, counting from 0. *)

Definition advance {RandomState} (random_sample : RandomState -> Q * RandomState)
    (n : nat) (s : RandomState) : RandomState :=
  Nat.iter n (fun s => (random_sample s).2) s.

Definition nth_sample {RandomState} (random_sample : RandomState -> Q * RandomState)
    (n : nat) (s : RandomState) : Q :=
  (random_sample (advance random_sample n s)).1.

(** The obstacle appended for the pair of samples [u] (lines 71-74). *)
Definition rect_at (lb ub u : Q * Q) : value :=
  VTuple [VStr "rect"; tolist (arr_add (arr_mul u (arr_sub ub lb)) lb);
          VTuple [VInt 1; VInt 1]].

(** The number of samples [main] draws on a scene. *)
Definition samples_drawn (env_name : string) : nat :=
  if String.eqb env_name "7d_narrow" then 600
  else if String.eqb env_name "3d_halfnarrow" then 300
  else 0.

(** ** Well-formed obstacles

    A descriptor the generator can read: a circle or a rectangle of
    positive size, untagged or tagged 0 or 1; a scene is tagged throughout
    or not at all. *)

Definition positive_size (sh : shape) : bool :=
  match sh with
  | Circle r => negb (Qle_bool r 0)
  | Rect w h => negb (Qle_bool w 0) && negb (Qle_bool h 0)
  end.

Definition binary_tag (tag : option Z) : bool :=
  match tag with
  | None => true
  | Some t => (t =? 0) || (t =? 1)
  end.

Definition well_formed (v : value) : bool :=
  match describe v with
  | Some d => positive_size (d_shape d) && binary_tag (d_tag d)
  | None => false
  end.

Definition tagged (v : value) : bool :=
  match describe v with
  | Some d => match d_tag d with Some _ => true | None => false end
  | None => false
  end.

Definition well_formed_scene (obstacles : list value) : bool :=
  forallb well_formed obstacles
  && (forallb tagged obstacles || forallb (fun v => negb (tagged v)) obstacles).

(** The label type of a namespace is one of the three choices. *)
Definition label_type_checked (ns : gmap string value) : Prop :=
  exists label_type,
    ns !! "label_type" = Some (VStr label_type) /\
    label_type ∈ ["instance"; "class"; "binary"].

(** ** The declarations of the arguments, as written

    Five of the eight [add_argument] calls give no [dest]; argparse then
    takes the first long option string, or the first option string when
    there is no long one, strips the leading dashes and turns the other
    dashes into underscores. *)

Record declaration : Type := Declaration {
  decl_option_strings : list string;
  decl_dest : option string;
  decl_type : arg_type;
  decl_choices : option (list value);
  decl_default : value
}.

Definition declarations : list declaration := [
  Declaration ["-e"; "--env"] (Some "env_name") TStr (Some (VStr <$> env_choices))
    (VStr "3d_halfnarrow");
  Declaration ["-o"; "--output-dir"] (Some "folder") TStr None (VStr "data/landscape");
  Declaration ["-l"; "--label-type"] None TStr
    (Some [VStr "instance"; VStr "class"; VStr "binary"]) (VStr "binary");
  Declaration ["-n"; "--num-classes"] (Some "num_class") TInt None (VInt 2);
  Declaration ["-d"; "--dof"] None TInt (Some [VInt 2; VInt 3; VInt 7]) (VInt 3);
  Declaration ["-i"; "--num-init-points"] None TInt None (VInt 8000);
  Declaration ["-w"; "--width"] None TFloat None (VFloat (binary64_round 0.3));
  Declaration ["-r"; "--random-seed"] None TInt None (VInt 2021)
].

Definition is_long (option_string : string) : bool :=
  match option_string with
  | String _ (String "-" _) => true
  | _ => false
  end.

Fixpoint lstrip_dashes (s : string) : string :=
  match s with
  | String "-" s => lstrip_dashes s
  | _ => s
  end.

Fixpoint dashes_to_underscores (s : string) : string :=
  match s with
  | EmptyString => EmptyString
  | String "-" s => String "_" (dashes_to_underscores s)
  | String c s => String c (dashes_to_underscores s)
  end.

Definition derive_dest (option_strings : list string) : string :=
  let dest_option_string :=
    match List.find is_long option_strings with
    | Some long => long
    | None => List.hd EmptyString option_strings
    end in
  dashes_to_underscores (lstrip_dashes dest_option_string).

Definition add_argument (d : declaration) : argument :=
  Argument (decl_option_strings d)
    (match decl_dest d with
     | Some dest => dest
     | None => derive_dest (decl_option_strings d)
     end)
    (decl_type d) (decl_choices d) (decl_default d).

(** * Properties *)

(** C1: every fixed scene identifier looks up to the obstacle sequence of
    the table, in table order; "3circle" is three circles centred at
    (0, 4.5), (-2, -3), (-2, 2) with radii 1, 2, 1.5. *)
Theorem catalog_lookup_literal :
  scene_descriptors "1rect_1circle" =
    Some [ Descriptor (Rect 2 2) (4, 3)%Q None;
           Descriptor (Circle 1) (-4, -3)%Q None ] /\
  scene_descriptors "3circle" =
    Some [ Descriptor (Circle 1) (0, 4.5)%Q None;
           Descriptor (Circle 2) (-2, -3)%Q None;
           Descriptor (Circle 1.5) (-2, 2)%Q None ] /\
  scene_descriptors "1rect_1circle_7d" =
    Some [ Descriptor (Circle 1) (-2, 3)%Q None;
           Descriptor (Rect 2 2) (3, 2)%Q None ] /\
  scene_descriptors "2class_1" =
    Some [ Descriptor (Rect 2 2) (5, 0)%Q (Some 0);
           Descriptor (Circle 1) (-3, 6)%Q (Some 1);
           Descriptor (Rect 2 1.5) (-5, 2)%Q (Some 1);
           Descriptor (Circle 1.5) (-5, -2)%Q (Some 1);
           Descriptor (Circle 1) (-3, -6)%Q (Some 1) ] /\
  scene_descriptors "2class_2" =
    Some [ Descriptor (Rect 16 0.5) (0, 3)%Q (Some 1);
           Descriptor (Rect 16 0.5) (0, -3)%Q (Some 0) ] /\
  scene_descriptors "3circle_7d" =
    Some [ Descriptor (Circle 1) (-2, 2)%Q None;
           Descriptor (Circle 1) (-3, 3)%Q None;
           Descriptor (Circle 1) (-6, -3)%Q None ] /\
  dom predefined_obstacles =
    ({[ "1rect_1circle"; "3circle"; "1rect_1circle_7d"; "2class_1"; "2class_2";
        "3circle_7d" ]} : gset string).
Proof.
  repeat split; try (vm_compute; reflexivity).
Qed.

(** ** Rounding *)

Lemma pow2_pos k : (0 < 2 ^ k)%Q.
Proof. apply Qpower_0_lt. reflexivity. Qed.

Lemma pow2_plus a b : (2 ^ (a + b) == 2 ^ a * 2 ^ b)%Q.
Proof. apply Qpower_plus. discriminate. Qed.

Lemma pow2_le a b : a <= b -> (2 ^ a <= 2 ^ b)%Q.
Proof. intros H. apply Qpower_le_compat_l; [exact H|discriminate]. Qed.

Lemma pow2_lt a b : a < b -> (2 ^ a < 2 ^ b)%Q.
Proof. intros H. apply Qpower_lt_compat_l; [exact H|reflexivity]. Qed.

Lemma pow2_int k : 0 <= k -> (2 ^ k == inject_Z (2 ^ k))%Q.
Proof. intros H. rewrite Zpower_Qpower by exact H. reflexivity. Qed.

Lemma pow2_div a b : (2 ^ a / 2 ^ b == 2 ^ (a - b))%Q.
Proof.
  unfold Z.sub. rewrite pow2_plus, Qpower_opp. reflexivity.
Qed.

Lemma Qlog2_spec (q : Q) : (0 < q)%Q -> (2 ^ Qlog2 q <= q < 2 ^ (Qlog2 q + 1))%Q.
Proof.
  intros Hq. destruct q as [n d]. unfold Qlog2. cbn [Qnum Qden].
  assert (Hn : 0 < n) by (unfold Qlt in Hq; simpl in Hq; lia).
  pose proof (Z.log2_spec n Hn) as [Hn1 Hn2].
  pose proof (Z.log2_spec (Zpos d) eq_refl) as [Hd1 Hd2].
  pose proof (Z.log2_nonneg n) as Ha. pose proof (Z.log2_nonneg (Zpos d)) as Hb.
  set (a := Z.log2 n) in *. set (b := Z.log2 (Zpos d)) in *.
  assert (En : (n # d == inject_Z n / inject_Z (Zpos d))%Q).
  { rewrite Qmake_Qdiv. reflexivity. }
  assert (Hdpos : (0 < inject_Z (Zpos d))%Q) by reflexivity.
  assert (Hlo : (2 ^ (a - b - 1) < n # d)%Q).
  { rewrite En. apply Qlt_shift_div_l; [exact Hdpos|].
    apply Qlt_le_trans with (2 ^ (a - b - 1) * 2 ^ (b + 1))%Q.
    - apply Qmult_lt_l; [apply pow2_pos|].
      rewrite pow2_int by lia. rewrite <- Zlt_Qlt.
      replace (Z.succ b) with (b + 1) in Hd2 by lia. exact Hd2.
    - rewrite <- pow2_plus. replace (a - b - 1 + (b + 1)) with a by lia.
      rewrite pow2_int by lia. rewrite <- Zle_Qle. exact Hn1. }
  assert (Hhi : (n # d < 2 ^ (a - b + 1))%Q).
  { rewrite En. apply Qlt_shift_div_r; [exact Hdpos|].
    apply Qlt_le_trans with (2 ^ (a - b + 1) * 2 ^ b)%Q.
    - rewrite <- pow2_plus. replace (a - b + 1 + b) with (a + 1) by lia.
      rewrite pow2_int by lia. rewrite <- Zlt_Qlt.
      replace (Z.succ a) with (a + 1) in Hn2 by lia. exact Hn2.
    - apply Qmult_le_l; [apply pow2_pos|].
      rewrite pow2_int by lia. rewrite <- Zle_Qle. exact Hd1. }
  destruct (Qle_bool (2 ^ (a - b)) (n # d)) eqn:E.
  - apply Qle_bool_iff in E. split; assumption.
  - assert (Hlt : (n # d < 2 ^ (a - b))%Q).
    { apply Qnot_le_lt. intros H. apply Qle_bool_iff in H. congruence. }
    replace (a - b - 1 + 1) with (a - b) by lia. split; [apply Qlt_le_weak|]; assumption.
Qed.

Lemma Qround_even_Z (z : Z) : Qround_even (inject_Z z) = z.
Proof.
  unfold Qround_even. rewrite Qfloor_Z.
  assert (E : (inject_Z z - inject_Z z ?= 1 # 2)%Q = Lt).
  { apply Qlt_alt. ring_simplify (inject_Z z - inject_Z z)%Q. reflexivity. }
  rewrite E. reflexivity.
Qed.

Lemma Qround_even_bounds (q : Q) : Qfloor q <= Qround_even q <= Qfloor q + 1.
Proof.
  unfold Qround_even. destruct (q - inject_Z (Qfloor q) ?= 1 # 2)%Q; try lia.
  destruct (Z.even (Qfloor q)); lia.
Qed.

Lemma Qround_even_monotone (x y : Q) : (x <= y)%Q -> Qround_even x <= Qround_even y.
Proof.
  intros H. pose proof (Qfloor_resp_le x y H) as Hf.
  destruct (Z.eq_dec (Qfloor x) (Qfloor y)) as [E|N].
  - unfold Qround_even. rewrite <- E.
    destruct (Qcompare_spec (x - inject_Z (Qfloor x)) (1 # 2)) as [Hx|Hx|Hx];
    destruct (Qcompare_spec (y - inject_Z (Qfloor x)) (1 # 2)) as [Hy|Hy|Hy];
    try lia; try (destruct (Z.even (Qfloor x)); lia); exfalso; lra.
  - pose proof (Qround_even_bounds x). pose proof (Qround_even_bounds y). lia.
Qed.

Lemma round_positive_nonneg (q : Q) : (0 < q)%Q -> (0 <= round_positive q)%Q.
Proof.
  intros Hq. unfold round_positive.
  set (c := Z.max (Qlog2 q - 52) (-1074)).
  apply Qmult_le_0_compat; [|apply Qlt_le_weak, pow2_pos].
  change 0%Q with (inject_Z 0). rewrite <- Zle_Qle.
  rewrite <- (Qround_even_Z 0). apply Qround_even_monotone.
  apply Qle_shift_div_l; [apply pow2_pos|]. change (inject_Z 0) with 0%Q. lra.
Qed.

Lemma Qlog2_monotone (x y : Q) : (0 < x)%Q -> (x <= y)%Q -> Qlog2 x <= Qlog2 y.
Proof.
  intros Hx Hxy. assert (Hy : (0 < y)%Q) by lra.
  pose proof (Qlog2_spec x Hx) as [H1 _]. pose proof (Qlog2_spec y Hy) as [_ H2].
  assert (H : (2 ^ Qlog2 x < 2 ^ (Qlog2 y + 1))%Q) by lra.
  apply Qpower_lt_compat_l_inv in H; [lia|reflexivity].
Qed.

Lemma round_positive_monotone (x y : Q) :
  (0 < x)%Q -> (x <= y)%Q -> (round_positive x <= round_positive y)%Q.
Proof.
  intros Hx Hxy. assert (Hy : (0 < y)%Q) by lra.
  pose proof (Qlog2_monotone x y Hx Hxy) as He.
  pose proof (Qlog2_spec x Hx) as [Hx1 Hx2]. pose proof (Qlog2_spec y Hy) as [Hy1 Hy2].
  unfold round_positive.
  set (ex := Qlog2 x) in *. set (ey := Qlog2 y) in *.
  set (cx := Z.max (ex - 52) (-1074)). set (cy := Z.max (ey - 52) (-1074)).
  destruct (Z.eq_dec cx cy) as [E|N].
  - rewrite <- E. apply Qmult_le_compat_r; [|apply Qlt_le_weak, pow2_pos].
    rewrite <- Zle_Qle. apply Qround_even_monotone.
    apply Qmult_le_compat_r; [exact Hxy|]. apply Qlt_le_weak, Qinv_lt_0_compat, pow2_pos.
  - assert (Hc : cx < cy) by lia. assert (Ecy : cy = ey - 52) by lia.
    apply Qle_trans with (2 ^ ey)%Q.
    + apply Qle_trans with (inject_Z (2 ^ (ey - cx)) * 2 ^ cx)%Q.
      * apply Qmult_le_compat_r; [|apply Qlt_le_weak, pow2_pos].
        rewrite <- Zle_Qle. rewrite <- (Qround_even_Z (2 ^ (ey - cx))).
        apply Qround_even_monotone. rewrite <- pow2_int by lia.
        apply Qle_shift_div_r; [apply pow2_pos|]. rewrite <- pow2_plus.
        replace (ey - cx + cx) with ey by lia.
        apply Qle_trans with (2 ^ (ex + 1))%Q; [lra|]. apply pow2_le. lia.
      * rewrite <- pow2_int by lia. rewrite <- pow2_plus.
        replace (ey - cx + cx) with ey by lia. apply Qle_refl.
    + apply Qle_trans with (inject_Z (2 ^ 52) * 2 ^ cy)%Q.
      * rewrite <- pow2_int by lia. rewrite <- pow2_plus.
        replace (52 + cy) with ey by lia. apply Qle_refl.
      * apply Qmult_le_compat_r; [|apply Qlt_le_weak, pow2_pos].
        rewrite <- Zle_Qle. rewrite <- (Qround_even_Z (2 ^ 52)) at 1.
        apply Qround_even_monotone. rewrite <- pow2_int by lia.
        apply Qle_shift_div_l; [apply pow2_pos|]. rewrite <- pow2_plus.
        replace (52 + cy) with ey by lia. exact Hy1.
Qed.

Lemma binary64_round_monotone (a b : Q) :
  (a <= b)%Q -> (binary64_round a <= binary64_round b)%Q.
Proof.
  intros H. unfold binary64_round.
  destruct (Qcompare_spec a 0) as [Ha|Ha|Ha]; destruct (Qcompare_spec b 0) as [Hb|Hb|Hb];
    try (exfalso; lra).
  - apply Qle_refl.
  - apply round_positive_nonneg. exact Hb.
  - pose proof (round_positive_nonneg (- a)). lra.
  - pose proof (round_positive_monotone (- b) (- a)). lra.
  - pose proof (round_positive_nonneg (- a)). pose proof (round_positive_nonneg b). lra.
  - apply round_positive_monotone; assumption.
Qed.

Lemma Qround_even_proper (x y : Q) : (x == y)%Q -> Qround_even x = Qround_even y.
Proof.
  intros E. apply Z.le_antisymm; apply Qround_even_monotone; rewrite E; apply Qle_refl.
Qed.

Lemma round_positive_integer (z : Z) :
  0 < z <= 2 ^ 53 -> (round_positive (inject_Z z) == inject_Z z)%Q.
Proof.
  intros [Hz0 Hz1]. unfold round_positive.
  assert (Hq : (0 < inject_Z z)%Q) by (change 0%Q with (inject_Z 0); rewrite <- Zlt_Qlt; lia).
  pose proof (Qlog2_spec _ Hq) as [H1 H2]. set (e := Qlog2 (inject_Z z)) in *.
  assert (He0 : 0 <= e).
  { assert (H : (2 ^ 0 < 2 ^ (e + 1))%Q).
    { eapply Qle_lt_trans; [|exact H2]. change (2 ^ 0)%Q with (inject_Z 1).
      rewrite <- Zle_Qle. lia. }
    apply (Qpower_lt_compat_l_inv 2 0 (e + 1)) in H; [lia|reflexivity]. }
  assert (He1 : e <= 53).
  { assert (H : (2 ^ e <= 2 ^ 53)%Q).
    { eapply Qle_trans; [exact H1|]. rewrite (pow2_int 53) by lia.
      rewrite <- Zle_Qle. exact Hz1. }
    apply (Qpower_le_compat_l_inv 2 e 53) in H; [lia|reflexivity]. }
  replace (Z.max (e - 52) (-1074)) with (e - 52) by lia.
  destruct (Z_le_gt_dec (e - 52) 0) as [Hc|Hc].
  - rewrite (Qround_even_proper _ (inject_Z (z * 2 ^ (52 - e)))).
    + rewrite Qround_even_Z, inject_Z_mult, <- pow2_int by lia.
      rewrite <- Qmult_assoc, <- pow2_plus.
      replace (52 - e + (e - 52)) with 0 by lia. change (2 ^ 0)%Q with 1%Q. ring.
    + rewrite inject_Z_mult, <- pow2_int by lia.
      unfold Qdiv. rewrite <- Qpower_opp. replace (- (e - 52)) with (52 - e) by lia.
      reflexivity.
  - assert (E : e = 53) by lia. subst e.
    assert (Ez : z = 2 ^ 53).
    { apply Z.le_antisymm; [exact Hz1|]. rewrite Zle_Qle, <- pow2_int by lia.
      rewrite E in H1. exact H1. }
    rewrite E, Ez. vm_compute. reflexivity.
Qed.

Lemma binary64_round_integer (z : Z) :
  Z.abs z <= 2 ^ 53 -> (binary64_round (inject_Z z) == inject_Z z)%Q.
Proof.
  intros Hz. unfold binary64_round.
  destruct (Qcompare_spec (inject_Z z) 0) as [H|H|H].
  - symmetry. exact H.
  - change 0%Q with (inject_Z 0) in H. rewrite <- Zlt_Qlt in H.
    rewrite <- inject_Z_opp, round_positive_integer by lia.
    rewrite inject_Z_opp. ring.
  - change 0%Q with (inject_Z 0) in H. rewrite <- Zlt_Qlt in H.
    apply round_positive_integer. lia.
Qed.


Lemma binary64_round_proper a b : (a == b)%Q -> (binary64_round a == binary64_round b)%Q.
Proof.
  intros E. apply Qle_antisym; apply binary64_round_monotone; rewrite E; apply Qle_refl.
Qed.

Lemma binary64_round_below (q : Q) (z : Z) :
  Z.abs z <= 2 ^ 53 -> (q <= inject_Z z)%Q -> (binary64_round q <= inject_Z z)%Q.
Proof.
  intros Hz Hq. eapply Qle_trans; [apply binary64_round_monotone, Hq|].
  rewrite binary64_round_integer by assumption. apply Qle_refl.
Qed.

Lemma binary64_round_above (q : Q) (z : Z) :
  Z.abs z <= 2 ^ 53 -> (inject_Z z <= q)%Q -> (inject_Z z <= binary64_round q)%Q.
Proof.
  intros Hz Hq. eapply Qle_trans; [|apply binary64_round_monotone, Hq].
  rewrite binary64_round_integer by assumption. apply Qle_refl.
Qed.

(** One coordinate [u*(ub-lb)+lb] stays between integral bounds. *)
Lemma sample_coordinate (u lb ub : Q) (a b : Z) :
  (0 <= u < 1)%Q -> (lb == inject_Z a)%Q -> (ub == inject_Z b)%Q ->
  a <= b -> Z.abs a <= 2 ^ 52 -> Z.abs b <= 2 ^ 52 ->
  (lb <= fadd (fmul u (fsub ub lb)) lb <= ub)%Q.
Proof.
  intros [Hu0 Hu1] Ea Eb Hab Ha Hb. unfold fadd, fmul, fsub.
  assert (Ed : (binary64_round (ub - lb) == inject_Z (b - a))%Q).
  { rewrite <- binary64_round_integer by lia. apply binary64_round_proper.
    rewrite Ea, Eb. unfold Z.sub. rewrite inject_Z_plus, inject_Z_opp. reflexivity. }
  assert (Hd : (0 <= inject_Z (b - a))%Q).
  { change 0%Q with (inject_Z 0). rewrite <- Zle_Qle. lia. }
  assert (Hm0 : (inject_Z 0 <= binary64_round (u * binary64_round (ub - lb)))%Q).
  { apply binary64_round_above; [lia|]. rewrite Ed. change (inject_Z 0) with 0%Q.
    apply Qmult_le_0_compat; assumption. }
  assert (Hm1 : (binary64_round (u * binary64_round (ub - lb)) <= inject_Z (b - a))%Q).
  { apply binary64_round_below; [lia|]. rewrite Ed.
    apply Qle_trans with (1 * inject_Z (b - a))%Q; [|rewrite Qmult_1_l; apply Qle_refl].
    apply Qmult_le_compat_r; [apply Qlt_le_weak|]; assumption. }
  change (inject_Z 0) with 0%Q in Hm0.
  unfold Z.sub in Hm1. rewrite inject_Z_plus, inject_Z_opp in Hm1.
  split.
  - apply Qle_trans with (inject_Z a); [lra|]. apply binary64_round_above; [lia|]. lra.
  - apply Qle_trans with (inject_Z b); [|lra]. apply binary64_round_below; [lia|]. lra.
Qed.

Lemma in_box_true (lb ub c : Q * Q) :
  (lb.1 <= c.1 <= ub.1)%Q -> (lb.2 <= c.2 <= ub.2)%Q -> in_box lb ub c = true.
Proof.
  intros [H1 H2] [H3 H4]. unfold in_box.
  rewrite !andb_true_iff, !Qle_bool_iff. tauto.
Qed.

Lemma in_box_bounds (lb ub c : Q * Q) :
  in_box lb ub c = true -> (lb.1 <= c.1 <= ub.1)%Q /\ (lb.2 <= c.2 <= ub.2)%Q.
Proof.
  unfold in_box. rewrite !andb_true_iff, !Qle_bool_iff. tauto.
Qed.

Lemma upper_box : integral_box (-8, 1.0)%Q (8, 8)%Q.
Proof. exists (-8), 1, 8, 8. cbn [fst snd]. repeat split; try reflexivity; lia. Qed.

Lemma lower_box : integral_box (-8, -8)%Q (8, -1.0)%Q.
Proof. exists (-8), (-8), 8, (-1). cbn [fst snd]. repeat split; try reflexivity; lia. Qed.

Lemma unit_rect_in_equiv (lb ub lb' ub' : Q * Q) (l : list value) :
  (lb.1 == lb'.1 /\ lb.2 == lb'.2 /\ ub.1 == ub'.1 /\ ub.2 == ub'.2)%Q ->
  Forall (unit_rect_in lb ub) l -> Forall (unit_rect_in lb' ub') l.
Proof.
  intros (E1 & E2 & E3 & E4) H. eapply Forall_impl; [exact H|]. intros o (c & Hd & Hb).
  exists c. split; [exact Hd|]. apply in_box_bounds in Hb.
  apply in_box_true; lra.
Qed.

(** ** Namespaces of argparse *)

Lemma defaults_typed :
  Forall (fun a => has_type (type a) (default a) /\ check_choices a (default a) = true)
    parser.
Proof.
  unfold parser. repeat (constructor; [split; [exact I|reflexivity]|]). constructor.
Qed.

(** In a namespace of argparse every attribute is of its type and passed
    its test, the defaults included. *)
Lemma conforms_typed (ns : gmap string value) (a : argument) :
  conforms ns -> a ∈ parser ->
  exists v, ns !! dest a = Some v /\ has_type (type a) v /\ check_choices a v = true.
Proof.
  intros [_ H] Hin. destruct (H a Hin) as (v & Hv & [->|Hok]).
  - exists (default a). split; [exact Hv|].
    exact (proj1 (Forall_forall _ _) defaults_typed a Hin).
  - exists v. auto.
Qed.

Lemma conforms_parsed (ns : gmap string value) :
  conforms ns -> parsed_namespace ns /\ label_type_checked ns.
Proof.
  intros H.
  assert (Hall : Forall (fun a => exists v, ns !! dest a = Some v /\
                           has_type (type a) v /\ check_choices a v = true) parser).
  { apply Forall_forall. intros a Hin. apply conforms_typed; assumption. }
  unfold parser in Hall.
  apply Forall_cons in Hall as [(e & He & Te & Ce) Hall].
  apply Forall_cons in Hall as [(f & Hf & Tf & _) Hall].
  apply Forall_cons in Hall as [(l & Hl & Tl & Cl) Hall].
  apply Forall_cons in Hall as [(n & Hn & Tn & _) Hall].
  apply Forall_cons in Hall as [(d & Hd & Td & Cd) Hall].
  apply Forall_cons in Hall as [(i & Hi & Ti & _) Hall].
  apply Forall_cons in Hall as [(wd & Hw & _ & _) Hall].
  apply Forall_cons in Hall as [(r & Hr & Tr & _) _].
  cbn [dest type] in *. unfold check_choices in Ce, Cl, Cd. cbn [choices] in Ce, Cl, Cd.
  destruct e as [| | |e| |]; try contradiction.
  destruct f as [| | |f| |]; try contradiction.
  destruct l as [| | |l| |]; try contradiction.
  destruct n as [n| | | | |]; try contradiction.
  destruct d as [d| | | | |]; try contradiction.
  destruct i as [i| | | | |]; try contradiction.
  destruct r as [r| | | | |]; try contradiction.
  assert (Hec : e ∈ env_choices).
  { unfold env_choices in *. cbn [fmap list_fmap existsb py_eqb] in Ce.
    rewrite !orb_true_iff, !String.eqb_eq in Ce. rewrite !elem_of_cons.
    intuition discriminate. }
  assert (Hlc : l ∈ ["instance"; "class"; "binary"]).
  { cbn [existsb py_eqb] in Cl. rewrite !orb_true_iff, !String.eqb_eq in Cl.
    rewrite !elem_of_cons. intuition discriminate. }
  assert (Hdc : d ∈ [2; 3; 7]).
  { cbn [existsb py_eqb] in Cd. rewrite !orb_true_iff, !Z.eqb_eq in Cd.
    rewrite !elem_of_cons. intuition discriminate. }
  split.
  - split; [exact (proj1 H)|]. exists e, f, l, n, d, i, r, wd. auto 12.
  - exists l. auto.
Qed.

Lemma argparse_returned parse_args (argv : list string) ns :
  argparse parse_args -> parse_args argv = inr ns -> conforms ns.
Proof. intros H E. specialize (H argv). rewrite E in H. exact H. Qed.

Lemma argparse_raised parse_args (argv : list string) e :
  argparse parse_args -> parse_args argv = inl e ->
  e = SystemExit 0 \/ e = SystemExit 2.
Proof. intros H E. specialize (H argv). rewrite E in H. exact H. Qed.

(** ** Runs of the builder *)

Section Properties.

Context {Robot : Type}.
Variables RandomState Generator : Type.
Variable np_seed_state : Z -> RandomState.
Variable random_sample : RandomState -> Q * RandomState.
Variable torch_seed_state : Z -> Generator.
Abbreviation run := (run (Robot := Robot) np_seed_state random_sample torch_seed_state).
Abbreviation delegates :=
  (delegates (Robot := Robot) np_seed_state random_sample torch_seed_state).
Abbreviation seeded seed := (World (np_seed_state seed) (torch_seed_state seed)).
Abbreviation sampled := (sampled_rects random_sample).

Lemma run_bind {A B} (p : prog Robot A) (f : A -> prog Robot B) w :
  run (p ≫= f) w =
  match run p w with
  | (Returned a, w') => run (f a) w'
  | (Raised e, w') => (Raised e, w')
  | (AtRobot l wd d k, w') => (AtRobot l wd d (fun r => bind (k r) f), w')
  | (AtGenerate c k, w') => (AtGenerate c (bind k f), w')
  end.
Proof.
  unfold mbind, prog_bind.
  revert w. induction p as [a|e|seed k IH|seed k IH|k IH|l wd d k IH|c k IH];
    intros w; simpl; try reflexivity.
  - destruct (torch_accepts seed); [apply IH|reflexivity].
  - destruct (numpy_accepts seed); [apply IH|reflexivity].
  - destruct (rand2 random_sample (numpy_state w)) as [u s]. apply IH.
Qed.

(** The loop returns with the sampled rectangles appended in drawing
    order; it touches the numpy state only. *)
Lemma run_append_rects (count : nat) (lb ub : Q * Q) (obstacles : list value) w :
  run (append_rects count lb ub obstacles) w =
    (Returned (obstacles ++ (sampled count lb ub (numpy_state w)).1),
     World (sampled count lb ub (numpy_state w)).2 (torch_state w)).
Proof.
  unfold append_rects, range. generalize 0%nat as from.
  revert obstacles w. induction count as [|n IH]; intros obstacles w from.
  - simpl. rewrite app_nil_r. destruct w; reflexivity.
  - cbn [seq for_each sampled_rects]. rewrite run_bind.
    unfold append_rect at 1.
    cbn [np_random_rand2 mbind prog_bind bind run mret prog_ret].
    destruct (rand2 random_sample (numpy_state w)) as [u s].
    rewrite IH. cbn [numpy_state torch_state].
    destruct (sampled n lb ub s) as [rest s']. cbn [fst snd].
    rewrite <- app_assoc. reflexivity.
Qed.

Lemma sampled_length (count : nat) (lb ub : Q * Q) s :
  length (sampled count lb ub s).1 = count.
Proof.
  revert s. induction count as [|n IH]; intros s; [reflexivity|].
  cbn [sampled_rects]. destruct (rand2 random_sample s) as [u s1].
  specialize (IH s1). destruct (sampled n lb ub s1) as [rest s2].
  simpl in *. congruence.
Qed.

(** The seeds both libraries take are those numpy takes. *)
Lemma accepted_seed (seed : Z) :
  0 <= seed < 2 ^ 32 <-> torch_accepts seed = true /\ numpy_accepts seed = true.
Proof.
  unfold torch_accepts, numpy_accepts.
  rewrite !andb_true_iff, !Z.leb_le, !Z.ltb_lt. lia.
Qed.

(** The two seeding calls of [main]: refused by torch, refused by numpy
    after torch was seeded, or both taken. *)
Lemma run_main_torch_refused (env_name folder label_type : string)
    (num_class dof num_init_points random_seed : Z) (width : value) w :
  torch_accepts random_seed = false ->
  run (main env_name folder label_type num_class dof num_init_points random_seed
         width) w = (Raised RuntimeError, w).
Proof.
  intros H. unfold main.
  cbn [torch_manual_seed np_random_seed mbind prog_bind bind run].
  rewrite H. reflexivity.
Qed.

Lemma run_main_numpy_refused (env_name folder label_type : string)
    (num_class dof num_init_points random_seed : Z) (width : value) w :
  torch_accepts random_seed = true -> numpy_accepts random_seed = false ->
  run (main env_name folder label_type num_class dof num_init_points random_seed
         width) w =
  (Raised ValueError, World (numpy_state w) (torch_seed_state random_seed)).
Proof.
  intros H1 H2. unfold main.
  cbn [torch_manual_seed np_random_seed mbind prog_bind bind run].
  rewrite H1, H2. reflexivity.
Qed.

(** With the seed taken, [main] resolves the scene in the seeded world
    and, when that returns, goes on to construct the robot; when it
    raises, so does [main]. *)
Lemma run_main_resolved (env_name folder label_type : string)
    (num_class dof num_init_points random_seed : Z) (width : value) w obstacles
    link_length w' :
  0 <= random_seed < 2 ^ 32 ->
  run (resolve_scene env_name dof) (seeded random_seed) =
    (Returned (obstacles, link_length), w') ->
  delegates
    (main env_name folder label_type num_class dof num_init_points random_seed
       width) w
    link_length width dof
    (fun robot => GenerateCall robot folder obstacles label_type num_class
                    num_init_points env_name true) w'.
Proof.
  intros Hseed H. apply accepted_seed in Hseed as [Ht Hn]. unfold delegates, main.
  cbn [torch_manual_seed np_random_seed mbind prog_bind bind run numpy_state
       torch_state].
  rewrite Ht, Hn. cbn [numpy_state torch_state].
  rewrite (run_bind (resolve_scene env_name dof)), H.
  cbn [new_RevolutePlanarRobot generate_data_planar_manipulators mbind prog_bind bind
       run].
  eexists. split; [reflexivity|]. intros robot. reflexivity.
Qed.

Lemma run_main_raised (env_name folder label_type : string)
    (num_class dof num_init_points random_seed : Z) (width : value) w e w' :
  0 <= random_seed < 2 ^ 32 ->
  run (resolve_scene env_name dof) (seeded random_seed) = (Raised e, w') ->
  run (main env_name folder label_type num_class dof num_init_points random_seed
         width) w = (Raised e, w').
Proof.
  intros Hseed H. apply accepted_seed in Hseed as [Ht Hn]. unfold main.
  cbn [torch_manual_seed np_random_seed mbind prog_bind bind run numpy_state
       torch_state].
  rewrite Ht, Hn. cbn [numpy_state torch_state].
  rewrite (run_bind (resolve_scene env_name dof)), H. reflexivity.
Qed.

Lemma run_resolve_narrow (dof : Z) w :
  let up := sampled 150 (-8, 1.0)%Q (8, 8)%Q (numpy_state w) in
  let lo := sampled 150 (-8, -8)%Q (8, -1.0)%Q up.2 in
  run (resolve_scene "7d_narrow" dof) w =
    (Returned (up.1 ++ lo.1, VInt 1), World lo.2 (torch_state w)).
Proof.
  intros up lo. unfold resolve_scene.
  change (String.eqb "7d_narrow" "7d_narrow") with true. cbv iota zeta.
  rewrite run_bind, run_append_rects. cbv iota beta.
  rewrite run_bind, run_append_rects. reflexivity.
Qed.

Lemma run_resolve_halfnarrow (dof : Z) w :
  let up := sampled 150 (-8, 1.0)%Q (8, 8)%Q (numpy_state w) in
  run (resolve_scene "3d_halfnarrow" dof) w =
    (Returned (up.1, VFloat 2.5%Q), World up.2 (torch_state w)).
Proof.
  intros up. unfold resolve_scene.
  change (String.eqb "3d_halfnarrow" "7d_narrow") with false.
  change (String.eqb "3d_halfnarrow" "3d_halfnarrow") with true. cbv iota zeta.
  rewrite run_bind, run_append_rects. reflexivity.
Qed.

(** On any other identifier the two subscriptions decide. *)
Lemma resolve_catalog (env_name : string) (dof : Z) :
  env_name <> "7d_narrow" -> env_name <> "3d_halfnarrow" ->
  resolve_scene (Robot := Robot) env_name dof =
  match predefined_obstacles !! env_name with
  | None => Raise (KeyError (VStr env_name))
  | Some obstacles =>
      match lengths !! dof with
      | None => Raise (KeyError (VInt dof))
      | Some link_length => Ret (obstacles, link_length)
      end
  end.
Proof.
  intros N1 N2. unfold resolve_scene.
  apply String.eqb_neq in N1, N2. rewrite N1, N2.
  unfold subscript. destruct (predefined_obstacles !! env_name); [|reflexivity].
  cbn [eval mbind prog_bind bind]. destruct (lengths !! dof); reflexivity.
Qed.

Lemma catalog_not_random (env_name : string) :
  is_Some (predefined_obstacles !! env_name) ->
  env_name <> "7d_narrow" /\ env_name <> "3d_halfnarrow".
Proof.
  intros [obstacles H]. split; intros ->; vm_compute in H; discriminate.
Qed.

Lemma lengths_lookup (dof : Z) :
  lengths !! dof =
  if decide (dof = 7) then Some (VInt 1)
  else if decide (dof = 3) then Some (VInt 2)
  else if decide (dof = 2) then Some (VFloat 3.5%Q)
  else None.
Proof.
  unfold lengths, dict_display. cbn [foldl fst snd].
  rewrite !lookup_insert. repeat case_decide; try congruence; try lia.
  all: try reflexivity.
Qed.

(** The run of [main] on the two generated scenes and on a table scene,
    with the seed taken. *)
Lemma main_narrow_delegates (folder label_type : string)
    (num_class dof num_init_points random_seed : Z) (width : value) w :
  0 <= random_seed < 2 ^ 32 ->
  let up := sampled 150 (-8, 1.0)%Q (8, 8)%Q (np_seed_state random_seed) in
  let lo := sampled 150 (-8, -8)%Q (8, -1.0)%Q up.2 in
  delegates
    (main "7d_narrow" folder label_type num_class dof num_init_points random_seed
       width) w (VInt 1) width dof
    (fun robot => GenerateCall robot folder (up.1 ++ lo.1) label_type num_class
                    num_init_points "7d_narrow" true)
    (World lo.2 (torch_seed_state random_seed)).
Proof.
  intros Hseed up lo. apply run_main_resolved; [exact Hseed|].
  rewrite run_resolve_narrow. reflexivity.
Qed.

Lemma main_halfnarrow_delegates (folder label_type : string)
    (num_class dof num_init_points random_seed : Z) (width : value) w :
  0 <= random_seed < 2 ^ 32 ->
  let up := sampled 150 (-8, 1.0)%Q (8, 8)%Q (np_seed_state random_seed) in
  delegates
    (main "3d_halfnarrow" folder label_type num_class dof num_init_points random_seed
       width) w (VFloat 2.5%Q) width dof
    (fun robot => GenerateCall robot folder up.1 label_type num_class
                    num_init_points "3d_halfnarrow" true)
    (World up.2 (torch_seed_state random_seed)).
Proof.
  intros Hseed up. apply run_main_resolved; [exact Hseed|].
  rewrite run_resolve_halfnarrow. reflexivity.
Qed.

Lemma main_catalog_delegates (env_name folder label_type : string)
    (num_class dof num_init_points random_seed : Z) (width : value) w obstacles
    link_length :
  0 <= random_seed < 2 ^ 32 ->
  predefined_obstacles !! env_name = Some obstacles ->
  lengths !! dof = Some link_length ->
  delegates
    (main env_name folder label_type num_class dof num_init_points random_seed width)
    w link_length width dof
    (fun robot => GenerateCall robot folder obstacles label_type num_class
                    num_init_points env_name true) (seeded random_seed).
Proof.
  intros Hseed Hobs Hlen. destruct (catalog_not_random env_name) as [N1 N2]; [eauto|].
  apply run_main_resolved; [exact Hseed|].
  rewrite resolve_catalog, Hobs, Hlen by assumption. reflexivity.
Qed.

(** A run of [main] never ends with a [KeyError] on a generated scene,
    whatever the seed. *)
Lemma generated_no_key_error (env_name folder label_type : string)
    (num_class dof num_init_points random_seed : Z) (width : value) w key w' :
  env_name = "7d_narrow" \/ env_name = "3d_halfnarrow" ->
  run (main env_name folder label_type num_class dof num_init_points random_seed
         width) w <> (Raised (KeyError key), w').
Proof.
  intros Henv E.
  destruct (torch_accepts random_seed) eqn:Ht;
    [destruct (numpy_accepts random_seed) eqn:Hn|].
  - assert (Hseed : 0 <= random_seed < 2 ^ 32) by (apply accepted_seed; auto).
    destruct Henv as [-> | ->].
    + destruct (main_narrow_delegates folder label_type num_class dof num_init_points
                  random_seed width w Hseed) as (k & Hk & _). congruence.
    + destruct (main_halfnarrow_delegates folder label_type num_class dof
                  num_init_points random_seed width w Hseed) as (k & Hk & _).
      congruence.
  - rewrite run_main_numpy_refused in E by assumption. discriminate.
  - rewrite run_main_torch_refused in E by assumption. discriminate.
Qed.

(** C3: for "7d_narrow" and for "3d_halfnarrow", with a seed both
    libraries take, the obstacle list handed to the generator is a
    function of the seed: one list per seed, whatever the other arguments
    and whatever state the generators were in before the run, because
    both are seeded first. *)
Theorem obstacle_field_reproducible (random_seed : Z) :
  0 <= random_seed < 2 ^ 32 ->
  (exists obstacles, forall folder label_type num_class dof num_init_points width w,
     exists w',
       delegates
         (main "7d_narrow" folder label_type num_class dof num_init_points
            random_seed width) w
         (VInt 1) width dof
         (fun robot => GenerateCall robot folder obstacles label_type num_class
                         num_init_points "7d_narrow" true) w') /\
  (exists obstacles, forall folder label_type num_class dof num_init_points width w,
     exists w',
       delegates
         (main "3d_halfnarrow" folder label_type num_class dof num_init_points
            random_seed width) w
         (VFloat 2.5%Q) width dof
         (fun robot => GenerateCall robot folder obstacles label_type num_class
                         num_init_points "3d_halfnarrow" true) w').
Proof.
  intros Hseed. split.
  - eexists. intros. eexists. apply main_narrow_delegates, Hseed.
  - eexists. intros. eexists. apply main_halfnarrow_delegates, Hseed.
Qed.

(** C4: the link length the robot is constructed with, the seed being
    one both libraries take: on a catalog scene 3.5 for DOF 2, 2 for
    DOF 3 and 1 for DOF 7; on "7d_narrow" the constant 1 and on
    "3d_halfnarrow" the constant 2.5, whatever the DOF. *)
Theorem link_length_resolution (folder label_type : string)
    (num_class num_init_points random_seed : Z) (width : value) w :
  0 <= random_seed < 2 ^ 32 ->
  (forall env_name dof link_length,
     is_Some (predefined_obstacles !! env_name) ->
     (dof, link_length) ∈ [(2, VFloat 3.5%Q); (3, VInt 2); (7, VInt 1)] ->
     exists call w',
       delegates
         (main env_name folder label_type num_class dof num_init_points
            random_seed width) w link_length width dof call w') /\
  (forall dof, exists call w',
     delegates
       (main "7d_narrow" folder label_type num_class dof num_init_points
          random_seed width) w (VInt 1) width dof call w') /\
  (forall dof, exists call w',
     delegates
       (main "3d_halfnarrow" folder label_type num_class dof num_init_points
          random_seed width) w (VFloat 2.5%Q) width dof call w').
Proof.
  intros Hseed. split; [|split].
  - intros env_name dof link_length Hin Hdof.
    destruct Hin as [obstacles Hobs].
    assert (Hlen : lengths !! dof = Some link_length).
    { rewrite lengths_lookup.
      rewrite !elem_of_cons, elem_of_nil in Hdof.
      destruct Hdof as [E|[E|[E|[]]]]; inversion E; subst; reflexivity. }
    eexists _, _. eapply main_catalog_delegates; eassumption.
  - intros dof. eexists _, _. apply main_narrow_delegates, Hseed.
  - intros dof. eexists _, _. apply main_halfnarrow_delegates, Hseed.
Qed.

(** C6, as amended: a scene of the table with a DOF other than 2, 3
    and 7 (DOF 5, say): the subscription [lengths[dof]] raises
    [KeyError(dof)].  The whole program is the two seeding calls followed
    by the raise: it contains neither the construction of the robot nor
    the call of the generator; with a seed both libraries take, the run
    ends with that [KeyError], both generators seeded. *)
Theorem unsupported_dof_fails (env_name folder label_type : string)
    (num_class dof num_init_points random_seed : Z) (width : value) :
  is_Some (predefined_obstacles !! env_name) ->
  dof ∉ [2; 3; 7] ->
  main (Robot := Robot) env_name folder label_type num_class dof num_init_points
    random_seed width =
    TorchManualSeed random_seed (NpRandomSeed random_seed (Raise (KeyError (VInt dof))))
  /\
  (0 <= random_seed < 2 ^ 32 ->
   forall w,
     run (main env_name folder label_type num_class dof num_init_points
            random_seed width) w =
     (Raised (KeyError (VInt dof)), seeded random_seed)).
Proof.
  intros Hin Hdof.
  destruct (catalog_not_random env_name Hin) as [N1 N2].
  destruct Hin as [obstacles Hobs].
  assert (Hlen : lengths !! dof = None).
  { rewrite lengths_lookup. rewrite !not_elem_of_cons in Hdof.
    destruct Hdof as (D2 & D3 & D7 & _). repeat case_decide; congruence. }
  split.
  - unfold main. rewrite resolve_catalog, Hobs, Hlen by assumption. reflexivity.
  - intros Hseed w. apply run_main_raised; [exact Hseed|].
    rewrite resolve_catalog, Hobs, Hlen by assumption. reflexivity.
Qed.

(** C7: an identifier that is neither in the table nor one of the two
    generated scenes ("nonexistent", say): the subscription
    [predefined_obstacles[env_name]] raises [KeyError(env_name)], whatever
    the DOF.  The whole program is the two seeding calls followed by the
    raise; nothing in [main] catches it, so with a seed both libraries
    take the run of [main] ends raised with it. *)
Theorem unknown_scene_fails (env_name folder label_type : string)
    (num_class dof num_init_points random_seed : Z) (width : value) :
  predefined_obstacles !! env_name = None ->
  env_name <> "7d_narrow" -> env_name <> "3d_halfnarrow" ->
  main (Robot := Robot) env_name folder label_type num_class dof num_init_points
    random_seed width =
    TorchManualSeed random_seed
      (NpRandomSeed random_seed (Raise (KeyError (VStr env_name))))
  /\
  (0 <= random_seed < 2 ^ 32 ->
   forall w,
     run (main env_name folder label_type num_class dof num_init_points
            random_seed width) w =
     (Raised (KeyError (VStr env_name)), seeded random_seed)).
Proof.
  intros Hobs N1 N2. split.
  - unfold main. rewrite resolve_catalog, Hobs by assumption. reflexivity.
  - intros Hseed w. apply run_main_raised; [exact Hseed|].
    rewrite resolve_catalog, Hobs by assumption. reflexivity.
Qed.

(** C8: with a seed both libraries take, whatever list the scene
    resolution leaves in [obstacles], from the table or from the sampling
    loops, is the list the generator is called with: after the resolution
    the run constructs the robot and then calls the generator with that
    same list, same elements in the same order, and returns. *)
Theorem obstacles_passed_unchanged (env_name folder label_type : string)
    (num_class dof num_init_points random_seed : Z) (width : value) w
    (obstacles : list value) (link_length : value) w1 :
  0 <= random_seed < 2 ^ 32 ->
  run (resolve_scene env_name dof) (seeded random_seed) =
    (Returned (obstacles, link_length), w1) ->
  exists k,
    run (main env_name folder label_type num_class dof num_init_points
           random_seed width) w = (AtRobot link_length width dof k, w1) /\
    forall robot w2, exists call,
      run (k robot) w2 = (AtGenerate call (Ret tt), w2) /\
      gc_robot call = robot /\ gc_obstacles call = obstacles.
Proof.
  intros Hseed H.
  destruct (run_main_resolved env_name folder label_type num_class dof num_init_points
              random_seed width w obstacles link_length w1 Hseed H)
    as (k & Hk & Hcall).
  exists k. split; [exact Hk|]. intros robot w2.
  eexists. rewrite Hcall. cbn [run gc_robot gc_obstacles]. auto.
Qed.

(** C9: on "7d_narrow" and on "3d_halfnarrow" no run ends with a
    [KeyError], for any integer DOF and any seed: [lengths] plays no
    part.  With a seed both libraries take, the run reaches the
    construction of the robot and passes the DOF on as it is. *)
Theorem random_scenes_accept_any_dof (folder label_type : string)
    (num_class dof num_init_points random_seed : Z) (width : value) w :
  (forall key w',
     run (main "7d_narrow" folder label_type num_class dof num_init_points
            random_seed width) w <> (Raised (KeyError key), w')) /\
  (forall key w',
     run (main "3d_halfnarrow" folder label_type num_class dof num_init_points
            random_seed width) w <> (Raised (KeyError key), w')) /\
  (0 <= random_seed < 2 ^ 32 ->
   (exists call w',
      delegates
        (main "7d_narrow" folder label_type num_class dof num_init_points
           random_seed width) w (VInt 1) width dof call w') /\
   (exists call w',
      delegates
        (main "3d_halfnarrow" folder label_type num_class dof num_init_points
           random_seed width) w (VFloat 2.5%Q) width dof call w')).
Proof.
  split; [|split].
  - intros key w'. apply generated_no_key_error. auto.
  - intros key w'. apply generated_no_key_error. auto.
  - intros Hseed. split.
    + eexists _, _. apply main_narrow_delegates, Hseed.
    + eexists _, _. apply main_halfnarrow_delegates, Hseed.
Qed.

(** *** The sample stream behind the fields *)

Abbreviation state_after := (advance random_sample).
Abbreviation sample_no := (nth_sample random_sample).

Lemma advance_add (n m : nat) s :
  state_after (n + m) s = state_after n (state_after m s).
Proof. unfold advance. apply Nat.iter_add. Qed.

Lemma nth_sample_shift (n m : nat) s :
  sample_no n (state_after m s) = sample_no (n + m) s.
Proof.
  unfold nth_sample. rewrite advance_add. reflexivity.
Qed.

Lemma rand2_stream s :
  rand2 random_sample s = ((sample_no 0 s, sample_no 1 s), state_after 2 s).
Proof.
  unfold rand2, nth_sample, advance.
  cbv [Nat.iter nat_rect].
  destruct (random_sample s) as [u0 s1]. cbn [fst snd].
  destruct (random_sample s1) as [u1 s2]. reflexivity.
Qed.

Lemma sampled_state (count : nat) (lb ub : Q * Q) s :
  (sampled count lb ub s).2 = state_after (2 * count) s.
Proof.
  revert s. induction count as [|n IH]; intros s; [reflexivity|].
  cbn [sampled_rects]. rewrite rand2_stream. specialize (IH (state_after 2 s)).
  destruct (sampled n lb ub (state_after 2 s)) as [rest s']. cbn [snd] in *.
  rewrite IH, <- advance_add. f_equal. lia.
Qed.

Lemma sampled_lookup (count : nat) (lb ub : Q * Q) s (i : nat) :
  (i < count)%nat ->
  (sampled count lb ub s).1 !! i =
    Some (rect_at lb ub (sample_no (2 * i) s, sample_no (2 * i + 1) s)).
Proof.
  revert s i. induction count as [|n IH]; intros s i Hi; [lia|].
  cbn [sampled_rects]. rewrite rand2_stream.
  specialize (IH (state_after 2 s)).
  destruct (sampled n lb ub (state_after 2 s)) as [rest s']. cbn [fst] in *.
  destruct i as [|j]; [reflexivity|].
  cbn [lookup list_lookup]. rewrite IH by lia. rewrite !nth_sample_shift.
  replace (2 * j + 2)%nat with (2 * S j)%nat by lia.
  replace (2 * j + 1 + 2)%nat with (2 * S j + 1)%nat by lia. reflexivity.
Qed.

(** X2: the sampling loop, for any count and any box: it returns with the
    earlier obstacles first and unchanged, then one rectangle per
    iteration; rectangle [i] is made from samples [2i] (for x) and
    [2i+1] (for y) of the stream, and the loop leaves the stream
    [2*count] samples further. *)
Theorem append_rects_stream (count : nat) (lb ub : Q * Q) (obstacles : list value) w :
  exists new,
    run (append_rects count lb ub obstacles) w =
      (Returned (obstacles ++ new),
       World (state_after (2 * count) (numpy_state w)) (torch_state w)) /\
    length new = count /\
    forall i, (i < count)%nat ->
      new !! i = Some (rect_at lb ub (sample_no (2 * i) (numpy_state w),
                                      sample_no (2 * i + 1) (numpy_state w))).
Proof.
  exists (sampled count lb ub (numpy_state w)).1. split; [|split].
  - rewrite run_append_rects, sampled_state. reflexivity.
  - apply sampled_length.
  - intros i Hi. apply sampled_lookup, Hi.
Qed.

(** X3: where a run of [main] leaves the two generators, whatever it
    was called with and however it ends.  A seed torch refuses: both as
    they were.  A seed torch takes and numpy refuses: torch seeded, numpy
    as it was.  A seed both take: torch as seeded, numpy as seeded and
    then 600 samples on for "7d_narrow", 300 for "3d_halfnarrow", none
    for any other identifier, and nothing of the state before the call
    remains. *)
Theorem main_samples_drawn (env_name folder label_type : string)
    (num_class dof num_init_points random_seed : Z) (width : value) w :
  (run (main env_name folder label_type num_class dof num_init_points random_seed
          width) w).2 =
  if torch_accepts random_seed then
    if numpy_accepts random_seed then
      World (state_after (samples_drawn env_name) (np_seed_state random_seed))
            (torch_seed_state random_seed)
    else World (numpy_state w) (torch_seed_state random_seed)
  else w.
Proof.
  destruct (torch_accepts random_seed) eqn:Ht;
    [destruct (numpy_accepts random_seed) eqn:Hn|].
  2: { rewrite run_main_numpy_refused by assumption. reflexivity. }
  2: { rewrite run_main_torch_refused by assumption. reflexivity. }
  assert (Hseed : 0 <= random_seed < 2 ^ 32) by (apply accepted_seed; auto).
  unfold samples_drawn.
  destruct (String.eqb_spec env_name "7d_narrow") as [->|N1];
    [|destruct (String.eqb_spec env_name "3d_halfnarrow") as [->|N2]].
  - destruct (main_narrow_delegates folder label_type num_class dof num_init_points
                random_seed width w Hseed) as (k & -> & _).
    cbn [snd]. rewrite !sampled_state, <- advance_add. reflexivity.
  - destruct (main_halfnarrow_delegates folder label_type num_class dof
                num_init_points random_seed width w Hseed) as (k & -> & _).
    cbn [snd]. rewrite sampled_state. reflexivity.
  - destruct (predefined_obstacles !! env_name) as [obstacles|] eqn:Hobs;
      [destruct (lengths !! dof) as [len|] eqn:Hlen|].
    + destruct (main_catalog_delegates env_name folder label_type num_class dof
                  num_init_points random_seed width w obstacles len Hseed Hobs Hlen)
        as (k & -> & _). reflexivity.
    + rewrite (run_main_raised env_name folder label_type num_class dof
                 num_init_points random_seed width w (KeyError (VInt dof))
                 (seeded random_seed) Hseed); [reflexivity|].
      rewrite resolve_catalog, Hobs, Hlen by assumption. reflexivity.
    + rewrite (run_main_raised env_name folder label_type num_class dof
                 num_init_points random_seed width w (KeyError (VStr env_name))
                 (seeded random_seed) Hseed); [reflexivity|].
      rewrite resolve_catalog, Hobs by assumption. reflexivity.
Qed.

(** X4: the field of "7d_narrow" as a function of the seeded stream, the
    seed being one both libraries take: obstacle [i] of the 300 is made
    from samples [2i] and [2i+1], in the upper box for [i < 150] and in
    the lower box from 150 on; the second loop goes on in the stream where
    the first one stopped. *)
Theorem narrow_field_from_stream (folder label_type : string)
    (num_class dof num_init_points random_seed : Z) (width : value) w :
  0 <= random_seed < 2 ^ 32 ->
  exists obstacles w',
    delegates
      (main "7d_narrow" folder label_type num_class dof num_init_points random_seed
         width) w
      (VInt 1) width dof
      (fun robot => GenerateCall robot folder obstacles label_type num_class
                      num_init_points "7d_narrow" true) w' /\
    forall i, (i < 300)%nat ->
      obstacles !! i =
        Some (rect_at (if (i <? 150)%nat then (-8, 1.0)%Q else (-8, -8)%Q)
                      (if (i <? 150)%nat then (8, 8)%Q else (8, -1.0)%Q)
                      (sample_no (2 * i) (np_seed_state random_seed),
                       sample_no (2 * i + 1) (np_seed_state random_seed))).
Proof.
  intros Hseed.
  pose proof (main_narrow_delegates folder label_type num_class dof num_init_points
                random_seed width w Hseed) as Hrun. cbv zeta in Hrun.
  set (s0 := np_seed_state random_seed) in *.
  set (up := sampled 150 (-8, 1.0)%Q (8, 8)%Q s0) in *.
  set (lo := sampled 150 (-8, -8)%Q (8, -1.0)%Q up.2) in *.
  assert (Lup : length up.1 = 150%nat) by apply sampled_length.
  exists (up.1 ++ lo.1), (World lo.2 (torch_seed_state random_seed)).
  split; [exact Hrun|].
  intros i Hi. destruct (Nat.ltb_spec i 150) as [Hlt|Hge].
  - rewrite lookup_app_l by lia. apply sampled_lookup, Hlt.
  - rewrite lookup_app_r by lia. rewrite Lup. unfold lo.
    rewrite sampled_lookup by lia. unfold up. rewrite sampled_state.
    rewrite !nth_sample_shift.
    replace (2 * (i - 150) + 2 * 150)%nat with (2 * i)%nat by lia.
    replace (2 * (i - 150) + 1 + 2 * 150)%nat with (2 * i + 1)%nat by lia.
    reflexivity.
Qed.

(** X5: with one seed that both libraries take, the field of
    "3d_halfnarrow" is the first half of the field of "7d_narrow": the
    same 150 rectangles in the same order, whatever the other arguments
    of the two calls. *)
Theorem halfnarrow_is_upper_half_of_narrow (random_seed : Z)
    (folder folder' label_type label_type' : string)
    (num_class num_class' dof dof' num_init_points num_init_points' : Z)
    (width width' : value) w w' :
  0 <= random_seed < 2 ^ 32 ->
  exists upper lower w1 w2,
    delegates
      (main "3d_halfnarrow" folder label_type num_class dof num_init_points
         random_seed width) w
      (VFloat 2.5%Q) width dof
      (fun robot => GenerateCall robot folder upper label_type num_class
                      num_init_points "3d_halfnarrow" true) w1 /\
    delegates
      (main "7d_narrow" folder' label_type' num_class' dof' num_init_points'
         random_seed width') w'
      (VInt 1) width' dof'
      (fun robot => GenerateCall robot folder' (upper ++ lower) label_type' num_class'
                      num_init_points' "7d_narrow" true) w2 /\
    length upper = 150%nat /\ length lower = 150%nat.
Proof.
  intros Hseed. eexists _, _, _, _.
  split; [apply main_halfnarrow_delegates, Hseed|].
  split; [apply main_narrow_delegates, Hseed|].
  split; apply sampled_length.
Qed.

(** *** The outcomes of [main] *)

Lemma catalog_dom :
  dom predefined_obstacles =
    ({[ "1rect_1circle"; "3circle"; "1rect_1circle_7d"; "2class_1"; "2class_2";
        "3circle_7d" ]} : gset string).
Proof. vm_compute. reflexivity. Qed.

Lemma catalog_keys (env_name : string) :
  is_Some (predefined_obstacles !! env_name) <->
  env_name ∈ ["1rect_1circle"; "3circle"; "1rect_1circle_7d"; "2class_1"; "2class_2";
              "3circle_7d"].
Proof.
  rewrite <- elem_of_dom, catalog_dom.
  rewrite !elem_of_union, !elem_of_singleton, !elem_of_cons, elem_of_nil. tauto.
Qed.

Lemma choices_split (env_name : string) :
  env_name ∈ env_choices <->
  is_Some (predefined_obstacles !! env_name) \/ env_name = "7d_narrow" \/
  env_name = "3d_halfnarrow".
Proof.
  rewrite catalog_keys. unfold env_choices. rewrite !elem_of_cons, !elem_of_nil. tauto.
Qed.


(** *** What the generator is handed *)

Lemma delegates_call (p : prog Robot unit) w l1 l2 wd1 wd2 d1 d2 call1 call2 w1 w2 :
  delegates p w l1 wd1 d1 call1 w1 -> delegates p w l2 wd2 d2 call2 w2 ->
  forall robot, call1 robot = call2 robot.
Proof.
  intros (k1 & H1 & K1) (k2 & H2 & K2) robot.
  rewrite H1 in H2. inversion H2; subst.
  specialize (K1 robot). rewrite K2 in K1. inversion K1. reflexivity.
Qed.

Lemma rect_at_well_formed (lb ub u : Q * Q) :
  well_formed (rect_at lb ub u) = true /\ tagged (rect_at lb ub u) = false.
Proof. split; reflexivity. Qed.

Lemma sampled_well_formed (count : nat) (lb ub : Q * Q) s :
  forallb well_formed (sampled count lb ub s).1 = true /\
  forallb (fun v => negb (tagged v)) (sampled count lb ub s).1 = true.
Proof.
  revert s. induction count as [|n IH]; intros s; [split; reflexivity|].
  cbn [sampled_rects]. destruct (rand2 random_sample s) as [u s1].
  specialize (IH s1). destruct (sampled n lb ub s1) as [rest s2]. cbn [fst] in *.
  destruct IH as [IH1 IH2]. cbn [forallb].
  fold (rect_at lb ub u). destruct (rect_at_well_formed lb ub u) as [-> ->].
  rewrite IH1, IH2. split; reflexivity.
Qed.

Lemma catalog_well_formed (env_name : string) (obstacles : list value) :
  predefined_obstacles !! env_name = Some obstacles ->
  well_formed_scene obstacles = true.
Proof.
  intros H. assert (Hk : is_Some (predefined_obstacles !! env_name)) by eauto.
  apply catalog_keys in Hk. rewrite !elem_of_cons, elem_of_nil in Hk.
  destruct Hk as [->|[->|[->|[->|[->|[->|[]]]]]]];
    vm_compute in H; inversion H; subst; vm_compute; reflexivity.
Qed.

(** A run that reaches the robot had its seed taken. *)
Lemma delegates_seed (env_name folder label_type : string)
    (num_class dof num_init_points random_seed : Z) (width : value) w
    link_length wd d call w' :
  delegates
    (main env_name folder label_type num_class dof num_init_points random_seed width)
    w link_length wd d call w' ->
  0 <= random_seed < 2 ^ 32.
Proof.
  intros (k & Hk & _). apply accepted_seed.
  destruct (torch_accepts random_seed) eqn:Ht;
    [destruct (numpy_accepts random_seed) eqn:Hn|]; [auto| |].
  - rewrite run_main_numpy_refused in Hk by assumption. discriminate.
  - rewrite run_main_torch_refused in Hk by assumption. discriminate.
Qed.

(** X7: every obstacle list that [main] hands to the generator, on any
    scene, is well formed: each obstacle reads as a circle or a rectangle
    of positive size, untagged or tagged 0 or 1, and the list is tagged
    throughout or not at all. *)
Theorem handed_over_well_formed (env_name folder label_type : string)
    (num_class dof num_init_points random_seed : Z) (width : value) w
    link_length wd d call w' :
  delegates
    (main env_name folder label_type num_class dof num_init_points random_seed width)
    w link_length wd d call w' ->
  forall robot, well_formed_scene (gc_obstacles (call robot)) = true.
Proof.
  intros H robot. pose proof (delegates_seed _ _ _ _ _ _ _ _ _ _ _ _ _ _ H) as Hseed.
  destruct (String.eqb_spec env_name "7d_narrow") as [->|N1];
    [|destruct (String.eqb_spec env_name "3d_halfnarrow") as [->|N2]].
  - pose proof (main_narrow_delegates folder label_type num_class dof num_init_points
                  random_seed width w Hseed) as Hr. cbv zeta in Hr.
    rewrite (delegates_call _ _ _ _ _ _ _ _ _ _ _ _ H Hr robot). cbn [gc_obstacles].
    unfold well_formed_scene. rewrite !forallb_app.
    destruct (sampled_well_formed 150 (-8, 1.0)%Q (8, 8)%Q
                (np_seed_state random_seed)) as [-> ->].
    match goal with
    | |- context [sampled 150 (-8, -8)%Q (8, -1.0)%Q ?s] =>
        destruct (sampled_well_formed 150 (-8, -8)%Q (8, -1.0)%Q s) as [-> ->]
    end.
    cbn [andb]. apply orb_true_r.
  - pose proof (main_halfnarrow_delegates folder label_type num_class dof
                  num_init_points random_seed width w Hseed) as Hr. cbv zeta in Hr.
    rewrite (delegates_call _ _ _ _ _ _ _ _ _ _ _ _ H Hr robot). cbn [gc_obstacles].
    unfold well_formed_scene.
    destruct (sampled_well_formed 150 (-8, 1.0)%Q (8, 8)%Q
                (np_seed_state random_seed)) as [-> ->].
    cbn [andb]. apply orb_true_r.
  - destruct (predefined_obstacles !! env_name) as [obstacles|] eqn:Hobs;
      [destruct (lengths !! dof) as [len|] eqn:Hlen|].
    + pose proof (main_catalog_delegates env_name folder label_type num_class dof
                    num_init_points random_seed width w obstacles len Hseed Hobs Hlen)
        as Hr.
      rewrite (delegates_call _ _ _ _ _ _ _ _ _ _ _ _ H Hr robot). cbn [gc_obstacles].
      eapply catalog_well_formed, Hobs.
    + exfalso. destruct H as (k & Hk & _).
      rewrite (run_main_raised env_name folder label_type num_class dof
                 num_init_points random_seed width w (KeyError (VInt dof))
                 (seeded random_seed) Hseed) in Hk; [discriminate|].
      rewrite resolve_catalog, Hobs, Hlen by assumption. reflexivity.
    + exfalso. destruct H as (k & Hk & _).
      rewrite (run_main_raised env_name folder label_type num_class dof
                 num_init_points random_seed width w (KeyError (VStr env_name))
                 (seeded random_seed) Hseed) in Hk; [discriminate|].
      rewrite resolve_catalog, Hobs by assumption. reflexivity.
Qed.

(** Every scene and DOF among the choices takes [main] to the
    construction of the robot, the seed being taken. *)
Lemma main_on_choices_call (env_name folder label_type : string)
    (num_class dof num_init_points random_seed : Z) (width : value) w :
  0 <= random_seed < 2 ^ 32 ->
  env_name ∈ env_choices -> dof ∈ [2; 3; 7] ->
  exists link_length obstacles w',
    delegates
      (main env_name folder label_type num_class dof num_init_points random_seed
         width) w link_length width dof
      (fun robot => GenerateCall robot folder obstacles label_type num_class
                      num_init_points env_name true) w'.
Proof.
  intros Hseed He Hd. apply choices_split in He.
  destruct He as [[obstacles Hobs]|[->| ->]].
  - assert (Hlen : exists link_length, lengths !! dof = Some link_length).
    { rewrite lengths_lookup. rewrite !elem_of_cons, elem_of_nil in Hd.
      destruct Hd as [->|[->|[->|[]]]]; eexists; reflexivity. }
    destruct Hlen as [link_length Hlen].
    eexists _, _, _. eapply main_catalog_delegates; eassumption.
  - eexists _, _, _. apply main_narrow_delegates, Hseed.
  - eexists _, _, _. apply main_halfnarrow_delegates, Hseed.
Qed.

(** Nor does a run of [main] on them end with a [KeyError], whatever the
    seed. *)
Lemma main_on_choices_no_key_error (env_name folder label_type : string)
    (num_class dof num_init_points random_seed : Z) (width : value) w key w' :
  env_name ∈ env_choices -> dof ∈ [2; 3; 7] ->
  run (main env_name folder label_type num_class dof num_init_points random_seed
         width) w <> (Raised (KeyError key), w').
Proof.
  intros He Hd E.
  destruct (torch_accepts random_seed) eqn:Ht;
    [destruct (numpy_accepts random_seed) eqn:Hn|].
  - assert (Hseed : 0 <= random_seed < 2 ^ 32) by (apply accepted_seed; auto).
    destruct (main_on_choices_call env_name folder label_type num_class dof
                num_init_points random_seed width w Hseed He Hd)
      as (len & obs & w1 & k & Hk & _). congruence.
  - rewrite run_main_numpy_refused in E by assumption. discriminate.
  - rewrite run_main_torch_refused in E by assumption. discriminate.
Qed.

(** *** The command line *)

(** The call [main] with the attributes of a namespace as keywords binds
    every parameter to its attribute. *)
Lemma call_main_bound (ns : gmap string value) (env_name folder label_type : string)
    (num_class dof num_init_points random_seed : Z) (width : value) :
  dom ns = (list_to_set (dest <$> parser) : gset string) ->
  ns !! "env_name" = Some (VStr env_name) ->
  ns !! "folder" = Some (VStr folder) ->
  ns !! "label_type" = Some (VStr label_type) ->
  ns !! "num_class" = Some (VInt num_class) ->
  ns !! "dof" = Some (VInt dof) ->
  ns !! "num_init_points" = Some (VInt num_init_points) ->
  ns !! "random_seed" = Some (VInt random_seed) ->
  ns !! "width" = Some width ->
  call_main (Robot := Robot) ns =
    main env_name folder label_type num_class dof num_init_points random_seed width.
Proof.
  intros Hdom He Hf Hl Hn Hd Hi Hr Hw. unfold call_main. cbv zeta.
  rewrite bool_decide_eq_true_2.
  2: { rewrite Hdom. apply (bool_decide_unpack _). vm_compute. exact I. }
  rewrite (lookup_union_Some_l _ _ _ _ He), (lookup_union_Some_l _ _ _ _ Hf),
    (lookup_union_Some_l _ _ _ _ Hl), (lookup_union_Some_l _ _ _ _ Hn),
    (lookup_union_Some_l _ _ _ _ Hd), (lookup_union_Some_l _ _ _ _ Hi),
    (lookup_union_Some_l _ _ _ _ Hr), (lookup_union_Some_l _ _ _ _ Hw).
  reflexivity.
Qed.

(** On a namespace of argparse the script is a call of [main] on a scene
    and a DOF among the choices. *)
Lemma script_returned parse_args (argv : list string) ns :
  argparse parse_args -> parse_args argv = inr ns ->
  exists env_name folder label_type num_class dof num_init_points random_seed width,
    (ns !! "env_name" = Some (VStr env_name) /\
     ns !! "folder" = Some (VStr folder) /\
     ns !! "label_type" = Some (VStr label_type) /\
     ns !! "num_class" = Some (VInt num_class) /\
     ns !! "dof" = Some (VInt dof) /\
     ns !! "num_init_points" = Some (VInt num_init_points) /\
     ns !! "random_seed" = Some (VInt random_seed) /\
     ns !! "width" = Some width) /\
    env_name ∈ env_choices /\ label_type ∈ ["instance"; "class"; "binary"] /\
    dof ∈ [2; 3; 7] /\
    script (Robot := Robot) parse_args argv =
      main env_name folder label_type num_class dof num_init_points random_seed width.
Proof.
  intros Hlib Hparse.
  destruct (conforms_parsed ns (argparse_returned _ _ _ Hlib Hparse)) as [Hns Hlab].
  destruct Hns as (Hdom & e & f & l & n & d & i & r & wd & He & Hec & Hf & Hl & Hn & Hd
                   & Hdc & Hi & Hr & Hw).
  destruct Hlab as (l' & Hl' & Hlc). rewrite Hl in Hl'. inversion Hl'; subst l'.
  exists e, f, l, n, d, i, r, wd. split; [auto 10|]. do 3 (split; [assumption|]).
  unfold script. rewrite Hparse. cbn [eval mbind prog_bind bind].
  apply call_main_bound; assumption.
Qed.

(** C10: through the command line neither [KeyError] can occur.  Every
    namespace the parser returns holds one of the eight scene identifiers
    and a DOF among 2, 3 and 7, and on it the script, given a seed both
    libraries take, reaches the construction of the robot.  No run of the
    script ends with a [KeyError], whatever the arguments: it leaves with
    the parser's [SystemExit], or with the exception of a refused seed,
    or it reaches the robot.  Both failures need a direct call of
    [main]. *)
Theorem cli_never_key_error parse_args (argv : list string) w :
  argparse parse_args ->
  (forall ns, parse_args argv = inr ns ->
     exists env_name dof random_seed width,
       ns !! "env_name" = Some (VStr env_name) /\ env_name ∈ env_choices /\
       ns !! "dof" = Some (VInt dof) /\ dof ∈ [2; 3; 7] /\
       ns !! "random_seed" = Some (VInt random_seed) /\
       ns !! "width" = Some width /\
       (0 <= random_seed < 2 ^ 32 ->
        exists link_length call w',
          delegates (script parse_args argv) w link_length width dof call w')) /\
  (forall key w', run (script parse_args argv) w <> (Raised (KeyError key), w')).
Proof.
  intros Hlib. split.
  - intros ns Hparse.
    destruct (script_returned parse_args argv ns Hlib Hparse)
      as (e & f & l & n & d & i & r & wd & Hns & Hec & _ & Hdc & ->).
    exists e, d, r, wd. repeat split; try tauto.
    intros Hseed.
    destruct (main_on_choices_call e f l n d i r wd w Hseed Hec Hdc)
      as (len & obs & w' & Hrun).
    eexists _, _, _. exact Hrun.
  - intros key w' E.
    destruct (parse_args argv) as [err|ns] eqn:Hparse.
    + unfold script in E. rewrite Hparse in E. cbn [eval mbind prog_bind bind run] in E.
      destruct (argparse_raised _ _ _ Hlib Hparse) as [-> | ->]; discriminate.
    + destruct (script_returned parse_args argv ns Hlib Hparse)
        as (e & f & l & n & d & i & r & wd & _ & Hec & _ & Hdc & Hscript).
      rewrite Hscript in E.
      exact (main_on_choices_no_key_error e f l n d i r wd w key w' Hec Hdc E).
Qed.

(** *** The script *)


(** X9: what the command line sets is what the generator gets.  Every
    namespace the parser returns holds the eight attributes, the label
    type one of "instance", "class", "binary"; with a seed both libraries
    take, the run reaches the construction of the robot with the width
    and DOF of the namespace, and the generator call that follows carries
    the namespace's folder, label type, class count and point count, the
    scene identifier as [env_id], and [vis=True]. *)
Theorem cli_values_passed_through parse_args (argv : list string) w ns :
  argparse parse_args ->
  parse_args argv = inr ns ->
  exists env_name folder label_type num_class dof num_init_points random_seed width,
    ns !! "env_name" = Some (VStr env_name) /\
    ns !! "folder" = Some (VStr folder) /\
    ns !! "label_type" = Some (VStr label_type) /\
    label_type ∈ ["instance"; "class"; "binary"] /\
    ns !! "num_class" = Some (VInt num_class) /\
    ns !! "dof" = Some (VInt dof) /\
    ns !! "num_init_points" = Some (VInt num_init_points) /\
    ns !! "random_seed" = Some (VInt random_seed) /\
    ns !! "width" = Some width /\
    (0 <= random_seed < 2 ^ 32 ->
     exists link_length obstacles w',
       delegates (script parse_args argv) w link_length width dof
         (fun robot => GenerateCall robot folder obstacles label_type num_class
                         num_init_points env_name true) w').
Proof.
  intros Hlib Hparse.
  destruct (script_returned parse_args argv ns Hlib Hparse)
    as (e & f & l & n & d & i & r & wd & Hns & Hec & Hlc & Hdc & ->).
  exists e, f, l, n, d, i, r, wd. repeat split; try tauto.
  intros Hseed. exact (main_on_choices_call e f l n d i r wd w Hseed Hec Hdc).
Qed.

(** X10: the declarations fit [main].  The eight arguments as declared,
    five of them with the attribute name left to argparse, are the
    arguments of [parser]: their attribute names are the parameter names
    of [main].  No option string is declared twice or clashes with the
    help option.  The defaults of the parser are the defaults of the
    parameters, so the script run without arguments calls [main] as a
    call without arguments would. *)
Theorem declarations_fit_main :
  add_argument <$> declarations = parser /\
  NoDup ("-h" :: "--help" :: concat (option_strings <$> parser)) /\
  defaults = dict_display main_parameters /\
  dest <$> parser ≡ₚ main_parameters.*1.
Proof.
  split; [vm_compute; reflexivity|]. split; [|split].
  - apply (bool_decide_unpack _). vm_compute. exact I.
  - vm_compute. reflexivity.
  - apply (bool_decide_unpack _). vm_compute. exact I.
Qed.

(** *** Where the sampled centres lie

    The samples are in [0, 1). *)

Hypothesis random_sample_unit : forall s, (0 <= (random_sample s).1 < 1)%Q.

Lemma rand2_unit s : let u := (rand2 random_sample s).1 in
  (0 <= u.1 < 1)%Q /\ (0 <= u.2 < 1)%Q.
Proof.
  unfold rand2. pose proof (random_sample_unit s) as H0.
  destruct (random_sample s) as [u0 s0].
  pose proof (random_sample_unit s0) as H1.
  destruct (random_sample s0) as [u1 s1]. simpl in *. tauto.
Qed.

Lemma sampled_in_box (count : nat) (lb ub : Q * Q) s :
  integral_box lb ub -> Forall (unit_rect_in lb ub) (sampled count lb ub s).1.
Proof.
  intros (a1 & a2 & b1 & b2 & (E1 & E2 & E3 & E4) & L1 & L2 & A1 & A2 & B1 & B2).
  revert s. induction count as [|n IH]; intros s; [constructor|].
  cbn [sampled_rects]. pose proof (rand2_unit s) as [U1 U2].
  destruct (rand2 random_sample s) as [u s1]. cbn [fst] in U1, U2.
  specialize (IH s1). destruct (sampled n lb ub s1) as [rest s2]. cbn [fst] in *.
  constructor; [|exact IH].
  eexists. split; [reflexivity|]. apply in_box_true; cbn [fst snd].
  - eapply sample_coordinate; eauto.
  - eapply sample_coordinate; eauto.
Qed.

(** C2: for "7d_narrow", with a seed both libraries take, the builder
    hands the generator exactly 300 obstacles, all 1 x 1 rectangles: the
    first 150 centred in x in [-8,8], y in [1,8], the last 150 in
    x in [-8,8], y in [-8,-1]; so every centre has x in [-8,8] and y in
    [1,8] or [-8,-1], none in the gap -1 < y < 1. *)
Theorem narrow_field_generated (folder label_type : string)
    (num_class dof num_init_points random_seed : Z) (width : value) w :
  0 <= random_seed < 2 ^ 32 ->
  exists obstacles w',
    delegates
      (main "7d_narrow" folder label_type num_class dof num_init_points
         random_seed width) w
      (VInt 1) width dof
      (fun robot => GenerateCall robot folder obstacles label_type num_class
                      num_init_points "7d_narrow" true) w' /\
    length obstacles = 300%nat /\
    Forall (unit_rect_in (-8, 1)%Q (8, 8)%Q) (take 150 obstacles) /\
    Forall (unit_rect_in (-8, -8)%Q (8, -1)%Q) (drop 150 obstacles) /\
    Forall (fun o => exists c, describe o = Some (Descriptor (Rect 1 1) c None) /\
              (-8 <= c.1 <= 8)%Q /\
              ((1 <= c.2 <= 8)%Q \/ (-8 <= c.2 <= -1)%Q) /\
              ~ (-1 < c.2 < 1)%Q) obstacles.
Proof.
  intros Hseed.
  pose proof (main_narrow_delegates folder label_type num_class dof num_init_points
                random_seed width w Hseed) as Hrun. cbv zeta in Hrun.
  set (up := sampled 150 (-8, 1.0)%Q (8, 8)%Q (np_seed_state random_seed)) in *.
  set (lo := sampled 150 (-8, -8)%Q (8, -1.0)%Q up.2) in *.
  assert (Lup : length up.1 = 150%nat) by apply sampled_length.
  assert (Llo : length lo.1 = 150%nat) by apply sampled_length.
  assert (Hup : Forall (unit_rect_in (-8, 1)%Q (8, 8)%Q) up.1).
  { eapply unit_rect_in_equiv; [|apply sampled_in_box, upper_box].
    cbn [fst snd]. repeat split; reflexivity. }
  assert (Hlo : Forall (unit_rect_in (-8, -8)%Q (8, -1)%Q) lo.1).
  { eapply unit_rect_in_equiv; [|apply sampled_in_box, lower_box].
    cbn [fst snd]. repeat split; reflexivity. }
  exists (up.1 ++ lo.1), (World lo.2 (torch_seed_state random_seed)).
  split; [|split; [|split; [|split]]].
  - exact Hrun.
  - rewrite length_app. lia.
  - rewrite take_app_length' by (symmetry; exact Lup). exact Hup.
  - rewrite drop_app_length' by (symmetry; exact Lup). exact Hlo.
  - apply Forall_app. split.
    + eapply Forall_impl; [exact Hup|]. intros o (c & Hd & Hb). exists c.
      split; [exact Hd|]. apply in_box_bounds in Hb. cbn [fst snd] in Hb. lra.
    + eapply Forall_impl; [exact Hlo|]. intros o (c & Hd & Hb). exists c.
      split; [exact Hd|]. apply in_box_bounds in Hb. cbn [fst snd] in Hb. lra.
Qed.

(** C5: for "3d_halfnarrow", with a seed both libraries take, the builder
    hands the generator exactly 150 obstacles, all 1 x 1 rectangles
    centred in x in [-8,8], y in [1,8]; no centre lies below y = 1 or
    above y = 8. *)
Theorem halfnarrow_field_generated (folder label_type : string)
    (num_class dof num_init_points random_seed : Z) (width : value) w :
  0 <= random_seed < 2 ^ 32 ->
  exists obstacles w',
    delegates
      (main "3d_halfnarrow" folder label_type num_class dof num_init_points
         random_seed width) w
      (VFloat 2.5%Q) width dof
      (fun robot => GenerateCall robot folder obstacles label_type num_class
                      num_init_points "3d_halfnarrow" true) w' /\
    length obstacles = 150%nat /\
    Forall (unit_rect_in (-8, 1)%Q (8, 8)%Q) obstacles /\
    Forall (fun o => exists c, describe o = Some (Descriptor (Rect 1 1) c None) /\
              (-8 <= c.1 <= 8)%Q /\ (1 <= c.2 <= 8)%Q /\
              ~ (c.2 < 1 \/ 8 < c.2)%Q) obstacles.
Proof.
  intros Hseed.
  pose proof (main_halfnarrow_delegates folder label_type num_class dof
                num_init_points random_seed width w Hseed) as Hrun. cbv zeta in Hrun.
  set (up := sampled 150 (-8, 1.0)%Q (8, 8)%Q (np_seed_state random_seed)) in *.
  assert (Hup : Forall (unit_rect_in (-8, 1)%Q (8, 8)%Q) up.1).
  { eapply unit_rect_in_equiv; [|apply sampled_in_box, upper_box].
    cbn [fst snd]. repeat split; reflexivity. }
  exists up.1, (World up.2 (torch_seed_state random_seed)).
  split; [|split; [|split]].
  - exact Hrun.
  - apply sampled_length.
  - exact Hup.
  - eapply Forall_impl; [exact Hup|]. intros o (c & Hd & Hb). exists c.
    split; [exact Hd|]. apply in_box_bounds in Hb. cbn [fst snd] in Hb. lra.
Qed.

(** X1: the sampling loop keeps to its box.  For any count and any box
    with integral corners, the loop returns with the earlier obstacles
    first and unchanged, followed by exactly [count] untagged 1 x 1
    rectangles, every one centred inside the closed box; with count 0 it
    appends nothing. *)
Theorem append_rects_in_box (count : nat) (lb ub : Q * Q) (obstacles : list value) w :
  integral_box lb ub ->
  exists new s,
    run (append_rects count lb ub obstacles) w =
      (Returned (obstacles ++ new), World s (torch_state w)) /\
    length new = count /\ Forall (unit_rect_in lb ub) new.
Proof.
  intros Hbox. eexists _, _. split; [apply run_append_rects|].
  split; [apply sampled_length|apply sampled_in_box, Hbox].
Qed.

End Properties.

(** ** The sample parser is a parser of argparse's kind *)

Lemma dest_inj (a a' : argument) :
  a ∈ parser -> a' ∈ parser -> dest a = dest a' -> a = a'.
Proof.
  unfold parser. rewrite !elem_of_cons, !elem_of_nil. intros H H'.
  repeat (destruct H as [->|H]); try (destruct H; fail);
    repeat (destruct H' as [->|H']); try (destruct H'; fail);
    cbn [dest]; intros E; try reflexivity; discriminate E.
Qed.

Lemma defaults_conform : conforms defaults.
Proof.
  split; [vm_compute; reflexivity|].
  intros a Hin. exists (default a). split; [|left; reflexivity].
  revert a Hin. apply Forall_forall. unfold parser.
  repeat (constructor; [vm_compute; reflexivity|]). constructor.
Qed.

(** Storing a value of the argument's type that passed its test keeps the
    namespace one of argparse. *)
Lemma conforms_insert (a : argument) (v : value) (ns : gmap string value) :
  conforms ns -> a ∈ parser -> has_type (type a) v -> check_choices a v = true ->
  conforms (<[dest a := v]> ns).
Proof.
  intros [Hdom Hall] Hin Hty Hchk. split.
  - destruct (Hall a Hin) as (v0 & Hv0 & _).
    rewrite dom_insert_lookup_L by (rewrite Hv0; eauto). exact Hdom.
  - intros a' Hin'. destruct (decide (dest a = dest a')) as [E|N].
    + apply dest_inj in E; [|assumption..]. subst a'. exists v.
      rewrite lookup_insert_eq. split; [reflexivity|]. right. auto.
    + rewrite lookup_insert_ne by exact N. apply Hall, Hin'.
Qed.

Lemma convert_typed (t : arg_type) (s : string) (v : value) :
  Pairs.convert t s = Some v -> has_type t v.
Proof.
  destruct t; unfold Pairs.convert;
    [|destruct (Decimal.int s)|destruct (Decimal.float s)];
    cbn; intros H; inversion H; exact I.
Qed.

Lemma find_argument_parser (flag : string) (a : argument) :
  Pairs.find_argument flag = Some a -> a ∈ parser.
Proof. intros H. apply List.find_some in H. apply list_elem_of_In. tauto. Qed.

Lemma parse_known_argparse (argv : list string) (ns : gmap string value) :
  conforms ns ->
  match Pairs.parse_known argv ns with
  | inr ns' => conforms ns'
  | inl e => e = SystemExit 0 \/ e = SystemExit 2
  end.
Proof.
  revert ns.
  enough (H : (forall ns, conforms ns ->
                 match Pairs.parse_known argv ns with
                 | inr ns' => conforms ns'
                 | inl e => e = SystemExit 0 \/ e = SystemExit 2
                 end) /\
              (forall s ns, conforms ns ->
                 match Pairs.parse_known (s :: argv) ns with
                 | inr ns' => conforms ns'
                 | inl e => e = SystemExit 0 \/ e = SystemExit 2
                 end)) by apply H.
  induction argv as [|s0 argv [IH1 IH2]].
  - split.
    + intros ns Hns. exact Hns.
    + intros s ns Hns. cbn [Pairs.parse_known].
      destruct (String.eqb s "-h" || String.eqb s "--help"); [auto|].
      destruct (Pairs.find_argument s); auto.
  - split; [exact (IH2 s0)|].
    intros s ns Hns. cbn [Pairs.parse_known].
    destruct (String.eqb s "-h" || String.eqb s "--help"); [auto|].
    destruct (Pairs.find_argument s) as [a|] eqn:Hfind; [|auto].
    destruct (Pairs.convert (type a) s0) as [v|] eqn:Hconv; [|auto].
    destruct (check_choices a v) eqn:Hchk; [|auto].
    apply IH1. apply conforms_insert; [exact Hns| |exact (convert_typed _ _ _ Hconv)
                                      |exact Hchk].
    exact (find_argument_parser _ _ Hfind).
Qed.

Lemma pairs_argparse : argparse Pairs.parse_args.
Proof. intros argv. apply parse_known_argparse, defaults_conform. Qed.

(** ** The theorems on the sample generator *)

Lemma lcg_sample_unit (s : Z) : (0 <= (Lcg.random_sample s).1 < 1)%Q.
Proof.
  unfold Lcg.random_sample. cbn [fst].
  set (s' := (6364136223846793005 * s + 1442695040888963407) mod 2 ^ 64).
  assert (H : 0 <= s' < 2 ^ 64) by (apply Z.mod_pos_bound; lia).
  assert (H1 : 0 <= s' / 2 ^ 11 < 2 ^ 53).
  { split; [apply Z.div_pos; lia|]. apply Z.div_lt_upper_bound; lia. }
  unfold Qle, Qlt. cbn [Qnum Qden]. lia.
Qed.

(** The default link width, 0.3, is the float 5404319552844595 / 2^54. *)
Example binary64_round_third_tenth :
  (binary64_round 0.3 == 5404319552844595 # 18014398509481984)%Q.
Proof. vm_compute. reflexivity. Qed.

Example binary64_round_dyadic :
  (binary64_round 4.5 == 4.5)%Q /\ (binary64_round 2.5 == 2.5)%Q /\
  (binary64_round (-8) == -8)%Q /\ (binary64_round (1 # 3) < 1 # 3)%Q.
Proof. vm_compute. repeat split; congruence. Qed.

Abbreviation lcg_world := (World (Lcg.seed_state 0) 0).
Abbreviation lcg_delegates :=
  (delegates (Robot := unit) Lcg.seed_state Lcg.random_sample (fun seed : Z => seed)).
Abbreviation lcg_run :=
  (run (Robot := unit) Lcg.seed_state Lcg.random_sample (fun seed : Z => seed)).
Abbreviation default_width := (VFloat (binary64_round 0.3)).

(** The two fields drawn with seed 2021, checked rectangle by rectangle. *)
Example narrow_field_seed_2021 :
  match handed_over (lcg_run (main "7d_narrow" "data/landscape" "binary" 2 7 8000 2021
                                default_width) lcg_world) with
  | Some obstacles =>
      (length obstacles =? 300)%nat
      && forallb (unit_rect_inb (-8, 1)%Q (8, 8)%Q) (take 150 obstacles)
      && forallb (unit_rect_inb (-8, -8)%Q (8, -1)%Q) (drop 150 obstacles)
  | None => false
  end = true.
Proof. vm_compute. reflexivity. Qed.

Example halfnarrow_field_seed_2021 :
  match handed_over (lcg_run (main "3d_halfnarrow" "data/landscape" "binary" 2 3 8000
                                2021 default_width) lcg_world) with
  | Some obstacles =>
      (length obstacles =? 150)%nat
      && forallb (unit_rect_inb (-8, 1)%Q (8, 8)%Q) obstacles
  | None => false
  end = true.
Proof. vm_compute. reflexivity. Qed.

(** The seeds the libraries refuse: -1 gets past torch and stops in
    numpy; 2^64 stops in torch. *)
Example refused_seeds :
  lcg_run (main "3circle" "data/landscape" "binary" 2 3 8000 (-1) default_width)
    lcg_world = (Raised ValueError, World (Lcg.seed_state 0) (-1)) /\
  lcg_run (main "3circle" "data/landscape" "binary" 2 3 8000 (2 ^ 64) default_width)
    lcg_world = (Raised RuntimeError, lcg_world) /\
  lcg_run (script Pairs.parse_args ["-r"; "-1"]) lcg_world =
    (Raised ValueError, World (Lcg.seed_state 0) (-1)).
Proof. vm_compute. auto. Qed.

(** A call of [main] with some of the keywords takes the defaults for the
    others; a keyword that is no parameter is a [TypeError]. *)
Example call_main_keywords :
  call_main (Robot := unit) {[ "env_name" := VStr "3circle" ]} =
    main "3circle" "data/landscape" "binary" 2 3 8000 2021 default_width /\
  call_main (Robot := unit) {[ "seed" := VInt 7 ]} = Raise TypeError.
Proof. split; vm_compute; reflexivity. Qed.

Lemma narrow_field_generated_witness :
  (forall s, (0 <= (Lcg.random_sample s).1 < 1)%Q) /\ 0 <= 2021 < 2 ^ 32 /\
  exists obstacles w',
    lcg_delegates
      (main "7d_narrow" "data/landscape" "binary" 2 7 8000 2021 default_width)
      lcg_world (VInt 1) default_width 7
      (fun robot => GenerateCall robot "data/landscape" obstacles "binary" 2 8000
                      "7d_narrow" true) w' /\
    length obstacles = 300%nat /\
    Forall (unit_rect_in (-8, 1)%Q (8, 8)%Q) (take 150 obstacles) /\
    Forall (unit_rect_in (-8, -8)%Q (8, -1)%Q) (drop 150 obstacles) /\
    Forall (fun o => exists c, describe o = Some (Descriptor (Rect 1 1) c None) /\
              (-8 <= c.1 <= 8)%Q /\
              ((1 <= c.2 <= 8)%Q \/ (-8 <= c.2 <= -1)%Q) /\
              ~ (-1 < c.2 < 1)%Q) obstacles.
Proof.
  assert (Hseed : 0 <= 2021 < 2 ^ 32) by lia.
  split; [exact lcg_sample_unit|]. split; [exact Hseed|].
  exact (narrow_field_generated (Robot := unit) Z Z Lcg.seed_state Lcg.random_sample
           (fun seed => seed) lcg_sample_unit "data/landscape" "binary" 2 7 8000 2021
           default_width lcg_world Hseed).
Defined.

Lemma obstacle_field_reproducible_witness :
  0 <= 2021 < 2 ^ 32 /\
  (exists obstacles, forall folder label_type num_class dof num_init_points width w,
     exists w',
       lcg_delegates
         (main "7d_narrow" folder label_type num_class dof num_init_points 2021 width)
         w (VInt 1) width dof
         (fun robot => GenerateCall robot folder obstacles label_type num_class
                         num_init_points "7d_narrow" true) w') /\
  (exists obstacles, forall folder label_type num_class dof num_init_points width w,
     exists w',
       lcg_delegates
         (main "3d_halfnarrow" folder label_type num_class dof num_init_points 2021
            width) w (VFloat 2.5%Q) width dof
         (fun robot => GenerateCall robot folder obstacles label_type num_class
                         num_init_points "3d_halfnarrow" true) w').
Proof.
  assert (Hseed : 0 <= 2021 < 2 ^ 32) by lia.
  split; [exact Hseed|].
  exact (obstacle_field_reproducible (Robot := unit) Z Z Lcg.seed_state
           Lcg.random_sample (fun seed => seed) 2021 Hseed).
Defined.

Lemma halfnarrow_field_generated_witness :
  (forall s, (0 <= (Lcg.random_sample s).1 < 1)%Q) /\ 0 <= 2021 < 2 ^ 32 /\
  exists obstacles w',
    lcg_delegates
      (main "3d_halfnarrow" "data/landscape" "binary" 2 3 8000 2021 default_width)
      lcg_world (VFloat 2.5%Q) default_width 3
      (fun robot => GenerateCall robot "data/landscape" obstacles "binary" 2 8000
                      "3d_halfnarrow" true) w' /\
    length obstacles = 150%nat /\
    Forall (unit_rect_in (-8, 1)%Q (8, 8)%Q) obstacles /\
    Forall (fun o => exists c, describe o = Some (Descriptor (Rect 1 1) c None) /\
              (-8 <= c.1 <= 8)%Q /\ (1 <= c.2 <= 8)%Q /\
              ~ (c.2 < 1 \/ 8 < c.2)%Q) obstacles.
Proof.
  assert (Hseed : 0 <= 2021 < 2 ^ 32) by lia.
  split; [exact lcg_sample_unit|]. split; [exact Hseed|].
  exact (halfnarrow_field_generated (Robot := unit) Z Z Lcg.seed_state
           Lcg.random_sample (fun seed => seed) lcg_sample_unit "data/landscape"
           "binary" 2 3 8000 2021 default_width lcg_world Hseed).
Defined.

Lemma link_length_resolution_witness :
  0 <= 2021 < 2 ^ 32 /\
  is_Some (predefined_obstacles !! "3circle") /\
  (2, VFloat 3.5%Q) ∈ [(2, VFloat 3.5%Q); (3, VInt 2); (7, VInt 1)] /\
  exists call w',
    lcg_delegates
      (main "3circle" "data/landscape" "binary" 2 2 8000 2021 default_width)
      lcg_world (VFloat 3.5%Q) default_width 2 call w'.
Proof.
  assert (Hseed : 0 <= 2021 < 2 ^ 32) by lia.
  assert (H1 : is_Some (predefined_obstacles !! "3circle"))
    by (eexists; vm_compute; reflexivity).
  assert (H2 : (2, VFloat 3.5%Q) ∈ [(2, VFloat 3.5%Q); (3, VInt 2); (7, VInt 1)])
    by apply list_elem_of_here.
  split; [exact Hseed|]. split; [exact H1|]. split; [exact H2|].
  exact (proj1 (link_length_resolution (Robot := unit) Z Z Lcg.seed_state
                  Lcg.random_sample (fun seed => seed) "data/landscape" "binary" 2
                  8000 2021 default_width lcg_world Hseed)
           "3circle" 2 (VFloat 3.5%Q) H1 H2).
Defined.

Lemma unsupported_dof_fails_witness :
  is_Some (predefined_obstacles !! "3circle") /\ (5 ∉ [2; 3; 7]) /\
  0 <= 2021 < 2 ^ 32 /\
  main (Robot := unit) "3circle" "data/landscape" "binary" 2 5 8000 2021 default_width =
    TorchManualSeed 2021 (NpRandomSeed 2021 (Raise (KeyError (VInt 5)))) /\
  forall w,
    lcg_run (main "3circle" "data/landscape" "binary" 2 5 8000 2021 default_width) w =
    (Raised (KeyError (VInt 5)), World (Lcg.seed_state 2021) 2021).
Proof.
  assert (Hseed : 0 <= 2021 < 2 ^ 32) by lia.
  assert (H1 : is_Some (predefined_obstacles !! "3circle"))
    by (eexists; vm_compute; reflexivity).
  assert (H2 : 5 ∉ [2; 3; 7]).
  { rewrite !not_elem_of_cons. repeat split; try discriminate. apply not_elem_of_nil. }
  destruct (unsupported_dof_fails (Robot := unit) Z Z Lcg.seed_state Lcg.random_sample
              (fun seed => seed) "3circle" "data/landscape" "binary" 2 5 8000 2021
              default_width H1 H2) as [Htree Hrun].
  split; [exact H1|]. split; [exact H2|]. split; [exact Hseed|].
  split; [exact Htree|exact (Hrun Hseed)].
Defined.

(** C6, as worded: an identifier other than the two generated ones need
    not be in the table.  "nonexistent" with DOF 5 is stopped by the
    subscription of the table, with [KeyError("nonexistent")], before
    [lengths] is built: the failure is not the one of the DOF. *)
Lemma unsupported_dof_unknown_scene :
  "nonexistent" <> "7d_narrow" /\ "nonexistent" <> "3d_halfnarrow" /\
  (5 ∉ [2; 3; 7]) /\ 0 <= 2021 < 2 ^ 32 /\
  main (Robot := unit) "nonexistent" "data/landscape" "binary" 2 5 8000 2021 default_width =
    TorchManualSeed 2021 (NpRandomSeed 2021 (Raise (KeyError (VStr "nonexistent")))) /\
  lcg_run (main "nonexistent" "data/landscape" "binary" 2 5 8000 2021 default_width) lcg_world =
    (Raised (KeyError (VStr "nonexistent")), World (Lcg.seed_state 2021) 2021) /\
  KeyError (VStr "nonexistent") <> KeyError (VInt 5).
Proof.
  split; [discriminate|]. split; [discriminate|]. split.
  { rewrite !not_elem_of_cons. repeat split; try discriminate. apply not_elem_of_nil. }
  split; [lia|]. split; [vm_compute; reflexivity|].
  split; [vm_compute; reflexivity|discriminate].
Qed.

Lemma unknown_scene_fails_witness :
  predefined_obstacles !! "nonexistent" = None /\ 0 <= 2021 < 2 ^ 32 /\
  main (Robot := unit) "nonexistent" "data/landscape" "binary" 2 3 8000 2021 default_width =
    TorchManualSeed 2021 (NpRandomSeed 2021 (Raise (KeyError (VStr "nonexistent")))) /\
  forall w,
    lcg_run (main "nonexistent" "data/landscape" "binary" 2 3 8000 2021 default_width) w =
    (Raised (KeyError (VStr "nonexistent")), World (Lcg.seed_state 2021) 2021).
Proof.
  assert (Hseed : 0 <= 2021 < 2 ^ 32) by lia.
  assert (H1 : predefined_obstacles !! "nonexistent" = None)
    by (vm_compute; reflexivity).
  assert (N1 : "nonexistent" <> "7d_narrow") by discriminate.
  assert (N2 : "nonexistent" <> "3d_halfnarrow") by discriminate.
  destruct (unknown_scene_fails (Robot := unit) Z Z Lcg.seed_state Lcg.random_sample
              (fun seed => seed) "nonexistent" "data/landscape" "binary" 2 3 8000 2021
              default_width H1 N1 N2) as [Htree Hrun].
  split; [exact H1|]. split; [exact Hseed|].
  split; [exact Htree|exact (Hrun Hseed)].
Defined.

Lemma obstacles_passed_unchanged_witness :
  0 <= 2021 < 2 ^ 32 /\
  exists obstacles k,
    subscript predefined_obstacles "3circle" VStr = inr obstacles /\
    lcg_run (resolve_scene "3circle" 3) (World (Lcg.seed_state 2021) 2021) =
      (Returned (obstacles, VInt 2), World (Lcg.seed_state 2021) 2021) /\
    lcg_run (main "3circle" "data/landscape" "binary" 2 3 8000 2021 default_width) lcg_world =
      (AtRobot (VInt 2) default_width 3 k, World (Lcg.seed_state 2021) 2021) /\
    forall robot w2, exists call,
      lcg_run (k robot) w2 = (AtGenerate call (Ret tt), w2) /\
      gc_robot call = robot /\ gc_obstacles call = obstacles.
Proof.
  assert (Hseed : 0 <= 2021 < 2 ^ 32) by lia.
  assert (H : exists obstacles,
             subscript predefined_obstacles "3circle" VStr = inr obstacles /\
             lcg_run (resolve_scene "3circle" 3) (World (Lcg.seed_state 2021) 2021) =
               (Returned (obstacles, VInt 2), World (Lcg.seed_state 2021) 2021))
    by (eexists; split; vm_compute; reflexivity).
  destruct H as (obstacles & H1 & H2).
  destruct (obstacles_passed_unchanged (Robot := unit) Z Z Lcg.seed_state
              Lcg.random_sample (fun seed => seed) "3circle" "data/landscape" "binary"
              2 3 8000 2021 default_width lcg_world obstacles (VInt 2)
              (World (Lcg.seed_state 2021) 2021) Hseed H2) as (k & Hk & Hcall).
  split; [exact Hseed|]. exists obstacles, k. auto.
Defined.

Lemma random_scenes_accept_any_dof_witness :
  0 <= 2021 < 2 ^ 32 /\
  (exists call w',
     lcg_delegates
       (main "7d_narrow" "data/landscape" "binary" 2 5 8000 2021 default_width)
       lcg_world (VInt 1) default_width 5 call w') /\
  (exists call w',
     lcg_delegates
       (main "3d_halfnarrow" "data/landscape" "binary" 2 5 8000 2021 default_width)
       lcg_world (VFloat 2.5%Q) default_width 5 call w').
Proof.
  assert (Hseed : 0 <= 2021 < 2 ^ 32) by lia.
  split; [exact Hseed|].
  exact (proj2 (proj2 (random_scenes_accept_any_dof (Robot := unit) Z Z Lcg.seed_state
                         Lcg.random_sample (fun seed => seed) "data/landscape"
                         "binary" 2 5 8000 2021 default_width lcg_world)) Hseed).
Defined.

Lemma cli_never_key_error_witness :
  argparse Pairs.parse_args /\
  exists ns env_name dof width,
    Pairs.parse_args ["-e"; "3circle"; "--dof"; "7"] = inr ns /\
    ns !! "env_name" = Some (VStr env_name) /\ env_name ∈ env_choices /\
    ns !! "dof" = Some (VInt dof) /\ dof ∈ [2; 3; 7] /\
    ns !! "random_seed" = Some (VInt 2021) /\
    ns !! "width" = Some width /\
    0 <= 2021 < 2 ^ 32 /\
    exists link_length call w',
      lcg_delegates (script Pairs.parse_args ["-e"; "3circle"; "--dof"; "7"])
        lcg_world link_length width dof call w'.
Proof.
  assert (Hseed : 0 <= 2021 < 2 ^ 32) by lia.
  assert (H : exists ns,
             Pairs.parse_args ["-e"; "3circle"; "--dof"; "7"] = inr ns /\
             ns !! "random_seed" = Some (VInt 2021))
    by (eexists; split; [vm_compute; reflexivity|vm_compute; reflexivity]).
  destruct H as (ns & Hns & Hr0).
  destruct (proj1 (cli_never_key_error (Robot := unit) Z Z Lcg.seed_state
                     Lcg.random_sample (fun seed => seed) Pairs.parse_args
                     ["-e"; "3circle"; "--dof"; "7"] lcg_world pairs_argparse) ns Hns)
    as (env_name & dof & r & width & He & Hec & Hd & Hdc & Hr & Hw & Hrun).
  rewrite Hr0 in Hr. inversion Hr. subst r.
  split; [exact pairs_argparse|].
  exists ns, env_name, dof, width.
  split; [exact Hns|]. split; [exact He|]. split; [exact Hec|]. split; [exact Hd|].
  split; [exact Hdc|]. split; [exact Hr0|]. split; [exact Hw|]. split; [exact Hseed|].
  exact (Hrun Hseed).
Defined.

(** ** The further theorems on the sample generator *)

Lemma append_rects_in_box_witness :
  (forall s, (0 <= (Lcg.random_sample s).1 < 1)%Q) /\
  integral_box (0, 0)%Q (3, 5)%Q /\
  exists new s,
    lcg_run (append_rects 4 (0, 0)%Q (3, 5)%Q []) lcg_world =
      (Returned ([] ++ new), World s (torch_state lcg_world)) /\
    length new = 4%nat /\ Forall (unit_rect_in (0, 0)%Q (3, 5)%Q) new.
Proof.
  assert (Hbox : integral_box (0, 0)%Q (3, 5)%Q).
  { exists 0, 0, 3, 5. cbn [fst snd]. repeat split; try reflexivity; lia. }
  split; [exact lcg_sample_unit|]. split; [exact Hbox|].
  exact (append_rects_in_box (Robot := unit) Z Z Lcg.seed_state Lcg.random_sample
           (fun seed => seed) lcg_sample_unit 4 (0, 0)%Q (3, 5)%Q [] lcg_world Hbox).
Defined.

Lemma append_rects_stream_witness :
  exists new,
    lcg_run (append_rects 3 (-8, 1.0)%Q (8, 8)%Q []) lcg_world =
      (Returned ([] ++ new),
       World (advance Lcg.random_sample 6 (numpy_state lcg_world))
             (torch_state lcg_world)) /\
    length new = 3%nat /\
    new !! 2%nat =
      Some (rect_at (-8, 1.0)%Q (8, 8)%Q
              (nth_sample Lcg.random_sample 4 (numpy_state lcg_world),
               nth_sample Lcg.random_sample 5 (numpy_state lcg_world))).
Proof.
  destruct (append_rects_stream (Robot := unit) Z Z Lcg.seed_state Lcg.random_sample
              (fun seed => seed) 3 (-8, 1.0)%Q (8, 8)%Q [] lcg_world)
    as (new & Hrun & Hlen & Hnth).
  exists new. split; [exact Hrun|]. split; [exact Hlen|]. apply (Hnth 2%nat). lia.
Defined.

Lemma narrow_field_from_stream_witness :
  0 <= 2021 < 2 ^ 32 /\
  exists obstacles w',
    lcg_delegates
      (main "7d_narrow" "data/landscape" "binary" 2 7 8000 2021 default_width)
      lcg_world (VInt 1) default_width 7
      (fun robot => GenerateCall robot "data/landscape" obstacles "binary" 2 8000
                      "7d_narrow" true) w' /\
    obstacles !! 200%nat =
      Some (rect_at (-8, -8)%Q (8, -1.0)%Q
              (nth_sample Lcg.random_sample 400 (Lcg.seed_state 2021),
               nth_sample Lcg.random_sample 401 (Lcg.seed_state 2021))).
Proof.
  assert (Hseed : 0 <= 2021 < 2 ^ 32) by lia.
  destruct (narrow_field_from_stream (Robot := unit) Z Z Lcg.seed_state
              Lcg.random_sample (fun seed => seed) "data/landscape" "binary" 2 7 8000
              2021 default_width lcg_world Hseed) as (obstacles & w' & Hrun & Hnth).
  split; [exact Hseed|].
  exists obstacles, w'. split; [exact Hrun|]. apply (Hnth 200%nat). lia.
Defined.

Lemma halfnarrow_is_upper_half_of_narrow_witness :
  0 <= 2021 < 2 ^ 32 /\
  exists upper lower w1 w2,
    lcg_delegates
      (main "3d_halfnarrow" "data/landscape" "binary" 2 3 8000 2021 default_width) lcg_world
      (VFloat 2.5%Q) default_width 3
      (fun robot => GenerateCall robot "data/landscape" upper "binary" 2 8000
                      "3d_halfnarrow" true) w1 /\
    lcg_delegates
      (main "7d_narrow" "data/elsewhere" "class" 3 7 100 2021 (VInt 1)) lcg_world
      (VInt 1) (VInt 1) 7
      (fun robot => GenerateCall robot "data/elsewhere" (upper ++ lower) "class" 3 100
                      "7d_narrow" true) w2 /\
    length upper = 150%nat /\ length lower = 150%nat.
Proof.
  assert (Hseed : 0 <= 2021 < 2 ^ 32) by lia.
  split; [exact Hseed|].
  exact (halfnarrow_is_upper_half_of_narrow (Robot := unit) Z Z Lcg.seed_state
           Lcg.random_sample (fun seed => seed) 2021 "data/landscape" "data/elsewhere"
           "binary" "class" 2 3 3 7 8000 100 default_width (VInt 1) lcg_world lcg_world Hseed).
Defined.

Lemma handed_over_well_formed_witness :
  exists link_length call w',
    lcg_delegates
      (main "2class_1" "data/landscape" "class" 2 7 8000 2021 default_width)
      lcg_world link_length default_width 7 call w' /\
    forall robot, well_formed_scene (gc_obstacles (call robot)) = true.
Proof.
  assert (Hseed : 0 <= 2021 < 2 ^ 32) by lia.
  assert (Hobs : exists obstacles, predefined_obstacles !! "2class_1" = Some obstacles)
    by (eexists; vm_compute; reflexivity).
  destruct Hobs as [obstacles Hobs].
  assert (Hlen : lengths !! 7 = Some (VInt 1)) by (vm_compute; reflexivity).
  pose proof (main_catalog_delegates (Robot := unit) Z Z Lcg.seed_state
                Lcg.random_sample (fun seed => seed) "2class_1" "data/landscape"
                "class" 2 7 8000 2021 default_width lcg_world obstacles (VInt 1)
                Hseed Hobs Hlen) as Hrun.
  eexists _, _, _. split; [exact Hrun|].
  exact (handed_over_well_formed (Robot := unit) Z Z Lcg.seed_state Lcg.random_sample
           (fun seed => seed) "2class_1" "data/landscape" "class" 2 7 8000 2021
           default_width lcg_world _ _ _ _ _ Hrun).
Defined.


Lemma cli_values_passed_through_witness :
  argparse Pairs.parse_args /\
  exists ns env_name folder label_type num_class dof num_init_points width
         link_length obstacles w',
    Pairs.parse_args ["-l"; "class"; "-e"; "2class_2"; "-w"; "0.5"] = inr ns /\
    ns !! "env_name" = Some (VStr env_name) /\
    ns !! "folder" = Some (VStr folder) /\
    ns !! "label_type" = Some (VStr label_type) /\
    label_type ∈ ["instance"; "class"; "binary"] /\
    ns !! "num_class" = Some (VInt num_class) /\
    ns !! "dof" = Some (VInt dof) /\
    ns !! "num_init_points" = Some (VInt num_init_points) /\
    ns !! "random_seed" = Some (VInt 2021) /\
    ns !! "width" = Some width /\
    0 <= 2021 < 2 ^ 32 /\
    lcg_delegates
      (script Pairs.parse_args ["-l"; "class"; "-e"; "2class_2"; "-w"; "0.5"])
      lcg_world link_length width dof
      (fun robot => GenerateCall robot folder obstacles label_type num_class
                      num_init_points env_name true) w'.
Proof.
  assert (Hseed : 0 <= 2021 < 2 ^ 32) by lia.
  assert (H : exists ns,
             Pairs.parse_args ["-l"; "class"; "-e"; "2class_2"; "-w"; "0.5"] = inr ns /\
             ns !! "random_seed" = Some (VInt 2021))
    by (eexists; split; [vm_compute; reflexivity|vm_compute; reflexivity]).
  destruct H as (ns & Hns & Hr0).
  destruct (cli_values_passed_through (Robot := unit) Z Z Lcg.seed_state
              Lcg.random_sample (fun seed => seed) Pairs.parse_args
              ["-l"; "class"; "-e"; "2class_2"; "-w"; "0.5"] lcg_world ns
              pairs_argparse Hns)
    as (e & f & l & n & d & i & r & wd & He & Hf & Hl & Hlc & Hn & Hd & Hi & Hr & Hw
        & Hrun).
  rewrite Hr0 in Hr. inversion Hr. subst r.
  destruct (Hrun Hseed) as (len & obs & w' & Hdel).
  split; [exact pairs_argparse|].
  exists ns, e, f, l, n, d, i, wd, len, obs, w'.
  split; [exact Hns|]. split; [exact He|]. split; [exact Hf|]. split; [exact Hl|].
  split; [exact Hlc|]. split; [exact Hn|]. split; [exact Hd|]. split; [exact Hi|].
  split; [exact Hr0|]. split; [exact Hw|]. split; [exact Hseed|exact Hdel].
Defined.
